(** * xeda: cocotb support of a simulation flow ([src/xeda/cocotb.py])

    A shallow embedding of [CocotbSettings.str_to_list], [Cocotb.env],
    [Cocotb._results] and [Cocotb.add_results], and the properties of the
    environment table and of the result summary that follow from the code.

    Conventions of the embedding:
    - a Python [str] is a [string]; its characters are code points below 256;
    - a Python [int] is a [Z], a [float] a [spec_float] (IEEE 754 binary64
      data, never computed with here), a [dict] with [str] keys a
      [gmap string _];
    - the objects the methods receive by reference ([self], [design],
      [flow_results]), the process environment and the logger live in one
      store, [World]; a method is a function from the store to a result and
      the store it leaves behind;
    - the platform is POSIX: [os.sep] is "/", [os.pathsep] is ":". *)

From Stdlib Require Import ZArith Ascii String List Bool Lia.
From Stdlib Require Import Floats.SpecFloat.
From stdpp Require Import base option list strings gmap.

Local Open Scope Z_scope.
Local Open Scope string_scope.

(* ===================================================================== *)
(** ** Python strings *)
(* ===================================================================== *)

Module PyStr.

(** [str.isspace] on one character, for code points below 256: the
    characters [str.strip()] removes. *)
Definition isspace (c : ascii) : bool :=
  let n := N_of_ascii c in
  ((9 <=? n) && (n <=? 13) || (28 <=? n) && (n <=? 32)
   || (n =? 133) || (n =? 160))%N.

(** [s.lstrip()] *)
Fixpoint lstrip (s : string) : string :=
  match s with
  | EmptyString => EmptyString
  | String c s' => if isspace c then lstrip s' else s
  end.

(** [s.rstrip()] *)
Fixpoint rstrip (s : string) : string :=
  match s with
  | EmptyString => EmptyString
  | String c s' =>
      match rstrip s' with
      | EmptyString => if isspace c then EmptyString else String c EmptyString
      | r => String c r
      end
  end.

(** [s.strip()] *)
Definition strip (s : string) : string := rstrip (lstrip s).

(** [s.split(sep)] for a one-character separator: never the empty list,
    [''.split(sep) == ['']]. *)
Fixpoint split (sep : ascii) (s : string) : list string :=
  match s with
  | EmptyString => [EmptyString]
  | String c s' =>
      if Ascii.eqb c sep then EmptyString :: split sep s'
      else match split sep s' with
           | [] => [String c EmptyString]
           | seg :: segs => String c seg :: segs
           end
  end.

(** [sep.join(l)] *)
Definition join (sep : string) (l : list string) : string :=
  String.concat sep l.

(** [s.startswith(c)] for one character. *)
Definition startswith (c : ascii) (s : string) : bool :=
  match s with
  | String c' _ => Ascii.eqb c' c
  | EmptyString => false
  end.

(** [s.endswith(c)] for one character. *)
Fixpoint endswith (c : ascii) (s : string) : bool :=
  match s with
  | EmptyString => false
  | String c' EmptyString => Ascii.eqb c' c
  | String _ s' => endswith c s'
  end.

(** [s.rfind(c)]: index of the last occurrence, [None] for -1. *)
Fixpoint rfind (c : ascii) (s : string) : option nat :=
  match s with
  | EmptyString => None
  | String c' s' =>
      match rfind c s' with
      | Some i => Some (S i)
      | None => if Ascii.eqb c' c then Some 0%nat else None
      end
  end.

(** [s[:n]] *)
Fixpoint take (n : nat) (s : string) : string :=
  match n, s with
  | S n', String c s' => String c (take n' s')
  | _, _ => EmptyString
  end.

(** Every character of [s] satisfies [p]. *)
Fixpoint all (p : ascii -> bool) (s : string) : bool :=
  match s with
  | EmptyString => true
  | String c s' => p c && all p s'
  end.

(** The last character of [s]. *)
Fixpoint last_char (s : string) : option ascii :=
  match s with
  | EmptyString => None
  | String c EmptyString => Some c
  | String _ s' => last_char s'
  end.

(** [bool(s)]: a string is true when it is not empty. *)
Definition truthy (s : string) : bool :=
  match s with EmptyString => false | _ => true end.

End PyStr.

(* ===================================================================== *)
(** ** Python values *)
(* ===================================================================== *)

(** The values that reach a validator, an environment table or the flow
    results. *)
#[local] Unset Elimination Schemes.
Inductive pyval : Type :=
| PNone
| PBool (b : bool)
| PInt (z : Z)
| PFloat (f : spec_float)
| PStr (s : string)
| PList (l : list pyval).
#[local] Set Elimination Schemes.

(** An [Optional[str]] as a value. *)
Definition of_optional_str (o : option string) : pyval :=
  match o with
  | None => PNone
  | Some s => PStr s
  end.

(** [bool(o)] for an [Optional[str]]: [None] and [''] are false. *)
Definition truthy_opt (o : option string) : bool :=
  match o with
  | None => false
  | Some s => PyStr.truthy s
  end.

(* ===================================================================== *)
(** ** CocotbSettings *)
(* ===================================================================== *)

Inductive ResolveX : Type := VALUE_ERROR | ZEROS | ONES | RANDOM.

Definition ResolveX_str (r : ResolveX) : string :=
  match r with
  | VALUE_ERROR => "VALUE_ERROR"
  | ZEROS => "ZEROS"
  | ONES => "ONES"
  | RANDOM => "RANDOM"
  end.

(** The validator of [testcase] and [gpi_extra], run before the type check
    ([pre=True]) on whatever value the configuration gave:
<<
    if isinstance(value, str):
        value = [s.strip() for s in value.split(",")]
    return value
>> *)
Definition str_to_list (value : pyval) : pyval :=
  match value with
  | PStr s => PList (map (fun s => PStr (PyStr.strip s)) (PyStr.split "," s))
  | _ => value
  end.

(* ===================================================================== *)
(** ** Paths *)
(* ===================================================================== *)

(** [os.path] of a POSIX platform, on strings. *)
Module OsPath.

Definition sep : string := "/".
Definition pathsep : ascii := ":"%char.

(** [os.path.isabs(s)] *)
Definition isabs (s : string) : bool := PyStr.startswith "/" s.

(** [os.path.join(a, b)] *)
Definition join (a b : string) : string :=
  if PyStr.startswith "/" b then b
  else if negb (PyStr.truthy a) || PyStr.endswith "/" a then a +:+ b
  else a +:+ sep +:+ b.

End OsPath.

(** A [pathlib.Path] of a POSIX platform in its parsed form: the root
    ("" for a relative path, "/" otherwise) and the components after it. *)
Module Path.

Record t : Type := mk { root : string; parts : list string }.

(** [str(p)] *)
Definition str (p : t) : string :=
  match root p, parts p with
  | EmptyString, [] => "."
  | r, ps => r +:+ PyStr.join "/" ps
  end.

(** [p.parent]: the path without its last component; a path with no
    component is its own parent. *)
Definition parent (p : t) : t :=
  {| root := root p; parts := removelast (parts p) |}.

(** [p.name]: the last component, [''] when there is none. *)
Definition name (p : t) : string := List.last (parts p) "".

(** [p.stem]: the name without its last suffix,
<<
    i = name.rfind('.')
    if 0 < i < len(name) - 1: return name[:i]
    else: return name
>> *)
Definition stem (p : t) : string :=
  let name := name p in
  match PyStr.rfind "." name with
  | Some i =>
      if (0 <? i)%nat && (i <? String.length name - 1)%nat
      then PyStr.take i name else name
  | None => name
  end.

End Path.

(* ===================================================================== *)
(** ** The design ([design.py], the fields this module reads) *)
(* ===================================================================== *)

Inductive SourceType : Type :=
| Cocotb
| OtherSourceType (tag : string).

Definition SourceType_eqb (a b : SourceType) : bool :=
  match a, b with
  | Cocotb, Cocotb => true
  | OtherSourceType x, OtherSourceType y => String.eqb x y
  | _, _ => false
  end.

Record DesignSource : Type := {
  ds_file : Path.t;
  ds_type : option SourceType
}.

(** [tb.cocotb], a [CocotbTestbench]. *)
Record CocotbTestbench : Type := {
  cc_module : option string;
  cc_toplevel : option string;
  cc_testcase : list string
}.

(** [tb.top]: unset, one name, or a sequence of names. *)
Inductive TbTop : Type :=
| TbTopNone
| TbTopStr (s : string)
| TbTopSeq (l : list string).

(** [bool(tb.top)]: [None], [''] and the empty sequence are false. *)
Definition TbTop_truthy (t : TbTop) : bool :=
  match t with
  | TbTopNone => false
  | TbTopStr s => PyStr.truthy s
  | TbTopSeq l => match l with [] => false | _ => true end
  end.

Record RtlSettings : Type := {
  rtl_top : option string;
  rtl_sources : list DesignSource
}.

Record TbSettings : Type := {
  tb_top : TbTop;
  tb_sources : list DesignSource;
  tb_cocotb : option CocotbTestbench
}.

(** [root_path] is held as the string [os.fspath] gives for it. *)
Record Design : Type := {
  name : string;
  root_path : string;
  rtl : RtlSettings;
  tb : TbSettings
}.

(** Modelled from the spec: [Design.sources_of_type] is defined in
    [design.py], outside this module. The call made by [Cocotb.env]
    selects, in their order, the entries of the testbench's sources whose
    type tag marks them as cocotb sources, and no RTL source; here the
    flags [rtl] and [tb] choose the lists that are searched and the entries
    of the given type are kept in order. *)
Definition sources_of_type (design : Design) (source_type : SourceType)
    (rtl_flag tb_flag : bool) : list DesignSource :=
  let sources :=
    ((if rtl_flag then rtl_sources (rtl design) else [])
     ++ (if tb_flag then tb_sources (tb design) else []))%list in
  List.filter (fun src => match ds_type src with
                          | Some ty => SourceType_eqb ty source_type
                          | None => false
                          end) sources.

(* ===================================================================== *)
(** ** Test reports ([junitparser]) *)
(* ===================================================================== *)

Record TestCase : Type := {
  tc_name : string;
  tc_classname : string;
  tc_result : string;
  tc_time : option spec_float
}.

Record TestSuite : Type := {
  ts_tests : Z;
  ts_errors : Z;
  ts_failures : Z;
  ts_skipped : Z;
  ts_time : spec_float;
  ts_cases : list (option TestCase)
}.

(** Modelled from the spec: the report type [JUnitXml] belongs to the
    [junitparser] library. A report is an ordered sequence of test suites
    (an entry may be absent) together with its own aggregate counters
    [tests], [errors], [failures], [skipped] (integers) and [time]
    (a float), which the report representation has already aggregated. *)
Record JUnitXml : Type := {
  tests : Z;
  errors : Z;
  failures : Z;
  skipped : Z;
  time : spec_float;
  suites : list (option TestSuite)
}.

(** Modelled from the spec: [JUnitXml()], the empty report, has zero suites
    and its counters are zero. *)
Definition JUnitXml_empty : JUnitXml :=
  {| tests := 0; errors := 0; failures := 0; skipped := 0;
     time := S754_zero false; suites := [] |}.

(* ===================================================================== *)
(** ** The store, exceptions and the method monad *)
(* ===================================================================== *)

Inductive exn : Type :=
| ValueError (msg : string)
| ReportParseError (msg : string).

Inductive result (A : Type) : Type :=
| Ok (a : A)
| Raise (e : exn).
Arguments Ok {A} a.
Arguments Raise {A} e.

Inductive LogLevel : Type := DEBUG | INFO | ERROR | CRITICAL.

(** A log record keeps the format string and its arguments apart, as
    [logging] does. *)
Inductive LogArg : Type :=
| LogVal (v : pyval)
| LogTable (t : gmap string pyval).

Record LogRecord : Type := {
  lr_level : LogLevel;
  lr_msg : string;
  lr_args : list LogArg
}.

(** The [Cocotb] object: the settings, the simulator name, and the slot
    in which [cached_property] keeps the value of [_results] once it has
    been computed. *)
Record CocotbObj : Type := {
  coverage : bool;
  reduced_log_fmt : bool;
  results_xml : string;
  resolve_x : ResolveX;
  testcase : list string;
  random_seed : option Z;
  gpi_extra : list string;
  executable : string;
  sim_name : string;
  cached_results : option JUnitXml
}.

(** The store. [w_files] is the file system as this module sees it: for
    every path at which a file exists, what [JUnitXml.fromfile] makes of
    it, a report or an exception. *)
Record World : Type := {
  w_self : CocotbObj;
  w_design : Design;
  w_flow_results : gmap string pyval;
  w_environ : gmap string string;
  w_files : gmap string (result JUnitXml);
  w_log : list LogRecord
}.

Definition M (A : Type) : Type := World -> result A * World.

#[export] Instance M_ret : MRet M := fun A a w => (Ok a, w).

#[export] Instance M_bind : MBind M := fun A B f c w =>
  match c w with
  | (Ok a, w') => f a w'
  | (Raise e, w') => (Raise e, w')
  end.

Definition raise {A : Type} (e : exn) : M A := fun w => (Raise e, w).

Definition gets {A : Type} (f : World -> A) : M A := fun w => (Ok (f w), w).

Definition modify (f : World -> World) : M unit := fun w => (Ok tt, f w).

Definition set_self (c : CocotbObj) (w : World) : World :=
  {| w_self := c; w_design := w_design w; w_flow_results := w_flow_results w;
     w_environ := w_environ w; w_files := w_files w; w_log := w_log w |}.

Definition set_design (d : Design) (w : World) : World :=
  {| w_self := w_self w; w_design := d; w_flow_results := w_flow_results w;
     w_environ := w_environ w; w_files := w_files w; w_log := w_log w |}.

Definition set_flow_results (r : gmap string pyval) (w : World) : World :=
  {| w_self := w_self w; w_design := w_design w; w_flow_results := r;
     w_environ := w_environ w; w_files := w_files w; w_log := w_log w |}.

Definition add_log (r : LogRecord) (w : World) : World :=
  {| w_self := w_self w; w_design := w_design w;
     w_flow_results := w_flow_results w; w_environ := w_environ w;
     w_files := w_files w; w_log := (w_log w ++ [r])%list |}.

(** [log.<level>(msg, *args)] *)
Definition log (level : LogLevel) (msg : string) (args : list LogArg) : M unit :=
  modify (add_log {| lr_level := level; lr_msg := msg; lr_args := args |}).

Definition with_tb_top (value : TbTop) (d : Design) : Design :=
  {| name := name d; root_path := root_path d; rtl := rtl d;
     tb := {| tb_top := value; tb_sources := tb_sources (tb d);
              tb_cocotb := tb_cocotb (tb d) |} |}.

(** [design.tb.top = value] *)
Definition assign_tb_top (value : TbTop) : M unit :=
  modify (fun w => set_design (with_tb_top value (w_design w)) w).

(** [flow_results[key] = value] *)
Definition assign_flow_result (key : string) (value : pyval) : M unit :=
  modify (fun w => set_flow_results (<[key := value]> (w_flow_results w)) w).

(* ===================================================================== *)
(** ** Cocotb.env *)
(* ===================================================================== *)

(** [bool(l)] for a list. *)
Definition nonempty {A : Type} (l : list A) : bool :=
  match l with [] => false | _ => true end.

Definition sources_empty_msg : string :=
  "'design.tb.cocotb' is set, but 'design.tb.sources' is empty.".

Definition no_top_msg (design : Design) : string :=
  "[cocotb] In design " +:+ name design
  +:+ ": Either `tb.top` or `rtl.top` must be specified.".

(** Lines 108-113: when [tb.top] is false, [rtl.top] must be true and is
    stored in [tb.top] as a one-element tuple. *)
Definition default_tb_top : M unit :=
  design ← gets w_design;
  if negb (TbTop_truthy (tb_top (tb design))) then
    match rtl_top (rtl design) with
    | Some top =>
        if negb (PyStr.truthy top) then raise (ValueError (no_top_msg design))
        else assign_tb_top (TbTopSeq [top])
    | None => raise (ValueError (no_top_msg design))
    end
  else mret tt.

(** Lines 114-118: the file of the last cocotb source of the testbench. *)
Definition top_cocotb_source (design : Design) : option Path.t :=
  let cocotb_sources := sources_of_type design Cocotb false true in
  if nonempty cocotb_sources then ds_file <$> last cocotb_sources
  else None.

(** Lines 126-133: the directory of [tb.cocotb.module]. *)
Definition module_path (design : Design) (design_module_split : list string)
    : string :=
  if (1 <? length design_module_split)%nat then
    let module_path := PyStr.join OsPath.sep (removelast design_module_split) in
    if negb (OsPath.isabs module_path)
    then OsPath.join (root_path design) module_path
    else module_path
  else root_path design.

(** Lines 120-138: the module name and the search path. *)
Definition module_and_py_path (design : Design) (cocotb : CocotbTestbench)
    (environ : gmap string string) : option string * list string :=
  let top_cocotb_source := top_cocotb_source design in
  let py_path := [] in
  let current_py_path := environ !! "PYTHONPATH" in
  let py_path :=
    if truthy_opt current_py_path
    then (py_path ++ PyStr.split OsPath.pathsep (default "" current_py_path))%list
    else py_path in
  let coco_module := None in
  let '(coco_module, py_path) :=
    if truthy_opt (cc_module cocotb) then
      let design_module_split := PyStr.split "/" (default "" (cc_module cocotb)) in
      (last design_module_split,
       (py_path ++ [module_path design design_module_split])%list)
    else
      match top_cocotb_source with
      | Some src => (Some (Path.stem src), py_path)
      | None => (coco_module, py_path)
      end in
  let py_path :=
    match top_cocotb_source with
    | Some src => (py_path ++ [Path.str (Path.parent src)])%list
    | None => py_path
    end in
  (coco_module, py_path).

(** Lines 139-141: the toplevel, read after [tb.top] has got its default. *)
Definition resolve_toplevel (design : Design) (cocotb : CocotbTestbench)
    : option string :=
  let toplevel := cc_toplevel cocotb in
  if negb (truthy_opt toplevel) && TbTop_truthy (tb_top (tb design)) then
    match tb_top (tb design) with
    | TbTopStr s => Some s
    | TbTopSeq l => head l
    | TbTopNone => toplevel
    end
  else toplevel.

(** Lines 142-158: the table. *)
Definition env_table (self : CocotbObj) (cocotb : CocotbTestbench)
    (coco_module toplevel : option string) (py_path : list string)
    : gmap string pyval :=
  let ret : gmap string pyval :=
    <["COCOTB_RESOLVE_X" := PStr (ResolveX_str (resolve_x self))]>
    (<["COCOTB_RESULTS_FILE" := PStr (results_xml self)]>
    (<["PYTHONPATH" := PStr (PyStr.join (String OsPath.pathsep "") py_path)]>
    (<["COCOTB_REDUCED_LOG_FMT" := PInt (Z.b2z (reduced_log_fmt self))]>
    (<["TOPLEVEL" := of_optional_str toplevel]>
    (<["MODULE" := of_optional_str coco_module]> ∅))))) in
  let ret := if coverage self then <["COVERAGE" := PInt 1]> ret else ret in
  let testcases :=
    if nonempty (testcase self) then testcase self else cc_testcase cocotb in
  let ret :=
    if nonempty testcases
    then <["TESTCASE" := PStr (PyStr.join "," testcases)]> ret else ret in
  let ret :=
    match random_seed self with
    | Some seed => <["RANDOM_SEED" := PInt seed]> ret
    | None => ret
    end in
  let ret :=
    if nonempty (gpi_extra self)
    then <["GPI_EXTRA" := PStr (PyStr.join "," (gpi_extra self))]> ret
    else ret in
  ret.

(** [Cocotb.env(self, design)] *)
Definition env : M (gmap string pyval) :=
  self ← gets w_self;
  design ← gets w_design;
  match tb_cocotb (tb design) with
  | Some cocotb =>
      if negb (nonempty (tb_sources (tb design)))
      then raise (ValueError sources_empty_msg)
      else
        _ ← default_tb_top;
        design ← gets w_design;
        environ ← gets w_environ;
        let '(coco_module, py_path) :=
          module_and_py_path design cocotb environ in
        let toplevel := resolve_toplevel design cocotb in
        let ret := env_table self cocotb coco_module toplevel py_path in
        _ ← log DEBUG "Cocotb env: %s" [LogTable ret];
        mret ret
  | None => mret ∅
  end.

(* ===================================================================== *)
(** ** Cocotb._results, Cocotb.results, Cocotb.add_results *)
(* ===================================================================== *)

(** The body of [_results]:
<<
    results_xml = self.results_xml
    if not Path(results_xml).exists():
        return JUnitXml()
    return JUnitXml.fromfile(results_xml)
>> *)
Definition load_results : M JUnitXml :=
  self ← gets w_self;
  let results_xml := results_xml self in
  files ← gets w_files;
  match files !! results_xml with
  | None => mret JUnitXml_empty
  | Some (Ok xml) => mret xml
  | Some (Raise e) => raise e
  end.

Definition set_cached_results (xml : JUnitXml) (self : CocotbObj) : CocotbObj :=
  {| coverage := coverage self; reduced_log_fmt := reduced_log_fmt self;
     results_xml := results_xml self; resolve_x := resolve_x self;
     testcase := testcase self; random_seed := random_seed self;
     gpi_extra := gpi_extra self; executable := executable self;
     sim_name := sim_name self; cached_results := Some xml |}.

(** [self._results], a [cached_property]: the body runs on the first
    access and its value is kept on the object; an exception leaves the
    slot empty. *)
Definition _results : M JUnitXml :=
  self ← gets w_self;
  match cached_results self with
  | Some xml => mret xml
  | None =>
      xml ← load_results;
      _ ← modify (fun w => set_self (set_cached_results xml (w_self w)) w);
      mret xml
  end.

(** [self.results] *)
Definition results : M JUnitXml := _results.

(** [bool(n)] for an [int]. *)
Definition truthy_int (n : Z) : bool := negb (n =? 0)%Z.

Definition default_prefix : string := "cocotb.".

(** [Cocotb.add_results(self, flow_results, prefix)] *)
Definition add_results (prefix : string) : M bool :=
  xml ← results;
  _ ← assign_flow_result (prefix +:+ "tests") (PInt (tests xml));
  _ ← assign_flow_result (prefix +:+ "errors") (PInt (errors xml));
  _ ← assign_flow_result (prefix +:+ "failures") (PInt (failures xml));
  _ ← assign_flow_result (prefix +:+ "skipped") (PInt (skipped xml));
  _ ← assign_flow_result (prefix +:+ "time") (PFloat (time xml));
  let failed := false in
  failed ← (if negb (truthy_int (tests xml)) then
              _ ← log ERROR "No tests were discovered" [];
              mret true
            else mret failed);
  failed ← (if truthy_int (errors xml) then
              _ ← log ERROR "Cocotb: %d error(s)" [LogVal (PInt (errors xml))];
              mret true
            else mret failed);
  failed ← (if truthy_int (failures xml) then
              _ ← log CRITICAL "Cocotb: %d failure(s)"
                    [LogVal (PInt (failures xml))];
              mret true
            else mret failed);
  _ ← (if failed then assign_flow_result "success" (PBool false) else mret tt);
  mret (negb failed).

(* ===================================================================== *)
(** ** Sample stores *)
(* ===================================================================== *)

Definition sample_self : CocotbObj :=
  {| coverage := false; reduced_log_fmt := true; results_xml := "results.xml";
     resolve_x := VALUE_ERROR; testcase := []; random_seed := None;
     gpi_extra := []; executable := "cocotb-config"; sim_name := "ghdl";
     cached_results := None |}.

Definition sample_world (design : Design) : World :=
  {| w_self := sample_self; w_design := design; w_flow_results := ∅;
     w_environ := ∅; w_files := ∅; w_log := [] |}.

Definition rtl_source : DesignSource :=
  {| ds_file := {| Path.root := "/"; Path.parts := ["r"; "src"; "top.vhdl"] |};
     ds_type := Some (OtherSourceType "vhdl") |}.

Definition cocotb_source : DesignSource :=
  {| ds_file := {| Path.root := "/"; Path.parts := ["r"; "tb"; "test_top.py"] |};
     ds_type := Some Cocotb |}.

Definition sample_design (top : TbTop) (rtl_top : option string)
    (sources : list DesignSource) (cocotb : option CocotbTestbench) : Design :=
  {| name := "adder"; root_path := "/r";
     rtl := {| rtl_top := rtl_top; rtl_sources := [rtl_source] |};
     tb := {| tb_top := top; tb_sources := sources; tb_cocotb := cocotb |} |}.

Definition cc_plain : CocotbTestbench :=
  {| cc_module := None; cc_toplevel := None; cc_testcase := [] |}.

Definition cc_pkg_mod : CocotbTestbench :=
  {| cc_module := Some "pkg/mod"; cc_toplevel := None;
     cc_testcase := ["test_add"] |}.

Definition cc_explicit_toplevel : CocotbTestbench :=
  {| cc_module := None; cc_toplevel := Some "dut"; cc_testcase := [] |}.

(** Cocotb is not requested. *)
Definition w_not_requested : World :=
  sample_world (sample_design TbTopNone None [] None).

(** Cocotb is requested and the testbench has no source. *)
Definition w_no_sources : World :=
  sample_world (sample_design (TbTopSeq ["adder_tb"]) (Some "adder") []
                              (Some cc_plain)).

(** An explicit [tb.cocotb.toplevel], no [tb.top] and no [rtl.top]. *)
Definition w_explicit_toplevel_only : World :=
  sample_world (sample_design TbTopNone None [cocotb_source]
                              (Some cc_explicit_toplevel)).

(** No [tb.top]; [rtl.top] is "adder"; module "pkg/mod"; the process has
    a [PYTHONPATH]. *)
Definition w_rtl_fallback : World :=
  {| w_self := sample_self;
     w_design := sample_design TbTopNone (Some "adder")
                   [cocotb_source; rtl_source] (Some cc_pkg_mod);
     w_flow_results := ∅;
     w_environ := {[ "PYTHONPATH" := "/opt/lib:/usr/lib/py" ]};
     w_files := ∅; w_log := [] |}.

(** No module and no cocotb source. *)
Definition w_no_module : World :=
  sample_world (sample_design (TbTopStr "adder_tb") None [rtl_source]
                              (Some cc_plain)).

(** A report of ten tests, two of them skipped, none failed. *)
Definition passing_report : JUnitXml :=
  {| tests := 10; errors := 0; failures := 0; skipped := 2;
     time := S754_zero false; suites := [] |}.

(** The results file holds [passing_report]. *)
Definition w_passing_report : World :=
  {| w_self := sample_self;
     w_design := sample_design TbTopNone None [] None;
     w_flow_results := ∅; w_environ := ∅;
     w_files := {[ "results.xml" := Ok passing_report ]}; w_log := [] |}.

(* ===================================================================== *)
(** ** Notions used in the statements *)
(* ===================================================================== *)

(** [e] is [seg] without the whitespace around it: [seg] is [e] between
    two runs of whitespace, and [e] neither starts nor ends with
    whitespace. *)
Definition stripped_of (seg e : string) : Prop :=
  exists pre post,
    seg = pre +:+ e +:+ post
    /\ PyStr.all PyStr.isspace pre = true
    /\ PyStr.all PyStr.isspace post = true
    /\ match e with
       | String c _ => PyStr.isspace c = false
       | EmptyString => True
       end
    /\ match PyStr.last_char e with
       | Some c => PyStr.isspace c = false
       | None => True
       end.

(** [segments] are the pieces of [s] between its occurrences of [sep]. *)
Definition segments_of (sep : ascii) (s : string) (segments : list string)
    : Prop :=
  segments <> []
  /\ PyStr.join (String sep "") segments = s
  /\ Forall (fun seg => PyStr.all (fun c => negb (Ascii.eqb c sep)) seg = true)
            segments.

(** The record [Cocotb.env] logs at debug level before it returns. *)
Definition env_log_record (table : gmap string pyval) : LogRecord :=
  {| lr_level := DEBUG; lr_msg := "Cocotb env: %s"; lr_args := [LogTable table] |}.

(** The design a successful [Cocotb.env] leaves behind: a [tb.top] that
    was false has become the one-element sequence of [rtl.top]. *)
Definition defaulted_design (d : Design) : Design :=
  if TbTop_truthy (tb_top (tb d)) then d
  else match rtl_top (rtl d) with
       | Some top => with_tb_top (TbTopSeq [top]) d
       | None => d
       end.

(** The first name of a [tb.top]: the string itself, or the first element
    of the sequence. *)
Definition first_of_top (t : TbTop) : option string :=
  match t with
  | TbTopNone => None
  | TbTopStr s => Some s
  | TbTopSeq l => head l
  end.

Definition is_cocotb (src : DesignSource) : bool :=
  match ds_type src with
  | Some Cocotb => true
  | _ => false
  end.

(** [o] is the last entry of [sources] whose type tag is cocotb, or [None]
    when there is no such entry. *)
Definition last_cocotb_source (sources : list DesignSource)
    (o : option DesignSource) : Prop :=
  match o with
  | Some src =>
      exists pre post,
        sources = (pre ++ src :: post)%list
        /\ is_cocotb src = true
        /\ Forall (fun x => is_cocotb x = false) post
  | None => Forall (fun x => is_cocotb x = false) sources
  end.

(** The entries of the process's [PYTHONPATH], none when the variable is
    unset or empty. *)
Definition existing_py_path (environ : gmap string string) : list string :=
  match environ !! "PYTHONPATH" with
  | Some p => if PyStr.truthy p then PyStr.split ":" p else []
  | None => []
  end.

(** The directory a module string stands for, from the segments before its
    last one. *)
Definition module_dir (root : string) (dir_segments : list string) : string :=
  match dir_segments with
  | [] => root
  | _ =>
      let p := PyStr.join "/" dir_segments in
      if OsPath.isabs p then p else OsPath.join root p
  end.

(** The search-path entry a module string contributes, none when
    [tb.cocotb.module] is unset or empty. *)
Definition module_entries (root : string) (module : option string)
    : list string :=
  match module with
  | Some m =>
      if PyStr.truthy m
      then [module_dir root (removelast (PyStr.split "/" m))]
      else []
  | None => []
  end.

(** The search-path entry the top cocotb source contributes. *)
Definition source_entries (o : option DesignSource) : list string :=
  match o with
  | Some src => [Path.str (Path.parent (ds_file src))]
  | None => []
  end.

(** The toplevel a call that passes the validations reports. *)
Definition reported_toplevel (d : Design) (cocotb : CocotbTestbench)
    : option string :=
  if truthy_opt (cc_toplevel cocotb) then cc_toplevel cocotb
  else if TbTop_truthy (tb_top (tb d)) then first_of_top (tb_top (tb d))
  else rtl_top (rtl d).

(** Whether [add_results] reports a failure for a report. *)
Definition summary_failed (xml : JUnitXml) : bool :=
  negb (truthy_int (tests xml)) || truthy_int (errors xml)
  || truthy_int (failures xml).

(** The flow results after [add_results] has stored the counters of [xml]
    under [prefix]. *)
Definition with_counters (prefix : string) (xml : JUnitXml)
    (flow_results : gmap string pyval) : gmap string pyval :=
  <[prefix +:+ "time" := PFloat (time xml)]>
  (<[prefix +:+ "skipped" := PInt (skipped xml)]>
  (<[prefix +:+ "failures" := PInt (failures xml)]>
  (<[prefix +:+ "errors" := PInt (errors xml)]>
  (<[prefix +:+ "tests" := PInt (tests xml)]> flow_results)))).

(* ===================================================================== *)
(** ** Cocotb.result_testcases *)
(* ===================================================================== *)

Section ResultTestcases.

(** [round(x, 3)] on a float; decimal rounding is left to the caller of the
    model. *)
Variable round3 : spec_float -> spec_float.

(** The dict yielded for one test case; [tc_result] stands for [str(tc)]. *)
Definition testcase_record (tc : TestCase) : gmap string pyval :=
  <["time" := match tc_time tc with
              | None => PNone
              | Some t => PFloat (round3 t)
              end]>
  (<["classname" := PStr (tc_classname tc)]>
  (<["result" := PStr (tc_result tc)]>
  (<["name" := PStr (tc_name tc)]> ∅))).

(** The inner loop, [for tc in ts: if tc is not None: yield ...]. *)
Fixpoint yield_cases (cases : list (option TestCase))
    : list (gmap string pyval) :=
  match cases with
  | [] => []
  | tc :: rest =>
      match tc with
      | Some tc => testcase_record tc :: yield_cases rest
      | None => yield_cases rest
      end
  end.

(** The outer loop, [for ts in self.results: if ts is not None: ...]. *)
Fixpoint yield_suites (suites : list (option TestSuite))
    : list (gmap string pyval) :=
  match suites with
  | [] => []
  | ts :: rest =>
      match ts with
      | Some ts => (yield_cases (ts_cases ts) ++ yield_suites rest)%list
      | None => yield_suites rest
      end
  end.

(** [list(self.result_testcases)]: the generator run to its end. *)
Definition result_testcases : M (list (gmap string pyval)) :=
  xml ← results;
  mret (yield_suites (suites xml)).

End ResultTestcases.

(* ===================================================================== *)
(** ** Notions used in the further statements *)
(* ===================================================================== *)

Definition set_files (files : gmap string (result JUnitXml)) (w : World)
    : World :=
  {| w_self := w_self w; w_design := w_design w;
     w_flow_results := w_flow_results w; w_environ := w_environ w;
     w_files := files; w_log := w_log w |}.

(** The six names every table of a design with cocotb holds. *)
Definition base_keys : gset string :=
  {[ "MODULE"; "TOPLEVEL"; "COCOTB_REDUCED_LOG_FMT"; "PYTHONPATH";
     "COCOTB_RESULTS_FILE"; "COCOTB_RESOLVE_X" ]}.

(** The testcases a table names: those of the settings, else those of the
    testbench. *)
Definition chosen_testcases (self : CocotbObj) (cocotb : CocotbTestbench)
    : list string :=
  match testcase self with
  | [] => cc_testcase cocotb
  | l => l
  end.

(** The names a table holds on top of [base_keys]. *)
Definition optional_keys (self : CocotbObj) (cocotb : CocotbTestbench)
    : gset string :=
  (if coverage self then {[ "COVERAGE" ]} else ∅)
  ∪ (match chosen_testcases self cocotb with
     | [] => ∅
     | _ => {[ "TESTCASE" ]}
     end)
  ∪ (match random_seed self with
     | Some _ => {[ "RANDOM_SEED" ]}
     | None => ∅
     end)
  ∪ (match gpi_extra self with
     | [] => ∅
     | _ => {[ "GPI_EXTRA" ]}
     end).

(** The flow results after a summary of [xml] under [prefix]. *)
Definition summarized (prefix : string) (xml : JUnitXml)
    (flow_results : gmap string pyval) : gmap string pyval :=
  if summary_failed xml
  then <["success" := PBool false]> (with_counters prefix xml flow_results)
  else with_counters prefix xml flow_results.

(** The keys a summary under [prefix] writes. *)
Definition summary_keys (prefix : string) (xml : JUnitXml) : gset string :=
  {[ prefix +:+ "tests"; prefix +:+ "errors"; prefix +:+ "failures";
     prefix +:+ "skipped"; prefix +:+ "time" ]}
  ∪ (if summary_failed xml then {[ "success" ]} else ∅).

(** The records a summary of [xml] logs, in their order. *)
Definition summary_log (xml : JUnitXml) : list LogRecord :=
  ((if (tests xml =? 0)%Z
    then [{| lr_level := ERROR; lr_msg := "No tests were discovered";
             lr_args := [] |}]
    else [])
   ++ (if (errors xml =? 0)%Z then []
       else [{| lr_level := ERROR; lr_msg := "Cocotb: %d error(s)";
                lr_args := [LogVal (PInt (errors xml))] |}])
   ++ (if (failures xml =? 0)%Z then []
       else [{| lr_level := CRITICAL; lr_msg := "Cocotb: %d failure(s)";
                lr_args := [LogVal (PInt (failures xml))] |}]))%list.

(** The test cases of a report that are there: the present cases of its
    present suites, in their order. *)
Definition present_cases (xml : JUnitXml) : list TestCase :=
  concat (map (fun ts => omap id (ts_cases ts)) (omap id (suites xml))).


(** A report with two suites, an absent suite between them, and an absent
    case in the first. *)
Definition case_add : TestCase :=
  {| tc_name := "test_add"; tc_classname := "adder"; tc_result := "passed";
     tc_time := Some (S754_zero false) |}.

Definition case_carry : TestCase :=
  {| tc_name := "test_carry"; tc_classname := "adder"; tc_result := "failed";
     tc_time := None |}.

Definition two_suite_report : JUnitXml :=
  {| tests := 2; errors := 0; failures := 1; skipped := 0;
     time := S754_zero false;
     suites :=
       [Some {| ts_tests := 1; ts_errors := 0; ts_failures := 0;
                ts_skipped := 0; ts_time := S754_zero false;
                ts_cases := [None; Some case_add] |};
        None;
        Some {| ts_tests := 1; ts_errors := 0; ts_failures := 1;
                ts_skipped := 0; ts_time := S754_zero false;
                ts_cases := [Some case_carry] |}] |}.

(** The results file holds [two_suite_report]. *)
Definition w_two_suites : World :=
  {| w_self := sample_self;
     w_design := sample_design TbTopNone None [] None;
     w_flow_results := {[ "synth.ok" := PBool true ]}; w_environ := ∅;
     w_files := {[ "results.xml" := Ok two_suite_report ]}; w_log := [] |}.

(** The results file exists and cannot be parsed. *)
Definition w_broken_report : World :=
  {| w_self := sample_self;
     w_design := sample_design TbTopNone None [] None;
     w_flow_results := {[ "synth.ok" := PBool true ]}; w_environ := ∅;
     w_files := {[ "results.xml" := Raise (ReportParseError "not XML") ]};
     w_log := [] |}.

(** Settings with coverage, a seed of 0 and testcases of their own. *)
Definition w_full_settings : World :=
  {| w_self :=
       {| coverage := true; reduced_log_fmt := false;
          results_xml := "out/results.xml"; resolve_x := ZEROS;
          testcase := ["test_add"; "test_carry"]; random_seed := Some 0;
          gpi_extra := []; executable := "cocotb-config"; sim_name := "ghdl";
          cached_results := None |};
     w_design := sample_design (TbTopSeq ["adder_tb"; "glbl"]) (Some "adder")
                   [cocotb_source; rtl_source] (Some cc_pkg_mod);
     w_flow_results := ∅;
     w_environ := {[ "PYTHONPATH" := "/opt/lib" ]};
     w_files := ∅; w_log := [] |}.

(* ===================================================================== *)
(** ** File names and their stems *)
(* ===================================================================== *)

(** [name] is the last component of a path with the components [parts],
    [''] when there is none. *)
Definition last_component (parts : list string) (name : string) : Prop :=
  (parts = [] /\ name = "")
  \/ exists dirs, parts = (dirs ++ [name])%list.

(** [st] is the stem of the file name [name]: the name without its last
    suffix. A suffix is a "." and what follows the last "." of the name;
    it is taken off when something stands before it and something after
    its ".", and otherwise the stem is the whole name. *)
Definition filename_stem (name st : string) : Prop :=
  (exists ext,
      name = st +:+ String "." ext
      /\ st <> "" /\ ext <> ""
      /\ PyStr.all (fun c => negb (Ascii.eqb c ".")) ext = true)
  \/ (st = name
      /\ forall s ext,
           name = s +:+ String "." ext ->
           PyStr.all (fun c => negb (Ascii.eqb c ".")) ext = true ->
           s = "" \/ ext = "").

(** A testbench top, no module, a cocotb source and a [PYTHONPATH]. *)
Definition w_source_module : World :=
  {| w_self := sample_self;
     w_design := sample_design (TbTopStr "adder_tb") None
                   [cocotb_source; rtl_source] (Some cc_plain);
     w_flow_results := ∅;
     w_environ := {[ "PYTHONPATH" := "/opt/lib" ]};
     w_files := ∅; w_log := [] |}.

(* ===================================================================== *)
(** * Properties *)
(* ===================================================================== *)

(** ** Strings: what [split], [join] and [strip] compute *)

Section StringFacts.

Variable sep : ascii.

Lemma split_nonempty (s : string) : PyStr.split sep s <> [].
Proof.
  destruct s as [|c s]; simpl; [discriminate|].
  destruct (Ascii.eqb c sep); [discriminate|].
  destruct (PyStr.split sep s); discriminate.
Qed.

(** Joining the segments with the separator gives the string back. *)
Lemma split_join (s : string) :
  PyStr.join (String sep "") (PyStr.split sep s) = s.
Proof.
  unfold PyStr.join.
  induction s as [|c s IH]; simpl; [reflexivity|].
  destruct (Ascii.eqb_spec c sep) as [->|Hne].
  - pose proof (split_nonempty s) as Hs.
    destruct (PyStr.split sep s) as [|seg segs]; [congruence|].
    simpl in *. now rewrite IH.
  - pose proof (split_nonempty s) as Hs.
    destruct (PyStr.split sep s) as [|seg segs]; [congruence|].
    simpl in *. destruct segs; simpl in *; now rewrite <- IH.
Qed.

(** No segment holds the separator. *)
Lemma split_no_sep (s : string) :
  Forall (fun seg => PyStr.all (fun c => negb (Ascii.eqb c sep)) seg = true)
         (PyStr.split sep s).
Proof.
  induction s as [|c s IH]; simpl.
  - constructor; [reflexivity|constructor].
  - destruct (Ascii.eqb c sep) eqn:E.
    + constructor; [reflexivity|exact IH].
    + destruct (PyStr.split sep s) as [|seg segs].
      * constructor; [simpl; now rewrite E|constructor].
      * inversion IH; subst. constructor; [simpl; now rewrite E|assumption].
Qed.

End StringFacts.

(** [lstrip] removes a prefix of whitespace, and all of it. *)
Lemma lstrip_spec (s : string) :
  exists pre, s = pre +:+ PyStr.lstrip s /\ PyStr.all PyStr.isspace pre = true
    /\ match PyStr.lstrip s with
       | String c _ => PyStr.isspace c = false
       | EmptyString => True
       end.
Proof.
  induction s as [|c s (pre & Heq & Hpre & Hhd)]; simpl.
  - exists ""; auto.
  - destruct (PyStr.isspace c) eqn:E.
    + exists (String c pre). repeat split; auto.
      * change (String c s = String c (pre +:+ PyStr.lstrip s)). now f_equal.
      * simpl. now rewrite E.
    + exists "". repeat split; auto.
Qed.

(** [rstrip] removes a suffix of whitespace, and all of it; it leaves the
    first character in place when that is not whitespace. *)
Lemma rstrip_spec (s : string) :
  exists post, s = PyStr.rstrip s +:+ post
    /\ PyStr.all PyStr.isspace post = true
    /\ match PyStr.last_char (PyStr.rstrip s) with
       | Some c => PyStr.isspace c = false
       | None => True
       end
    /\ match s with
       | String c _ =>
           PyStr.isspace c = false -> exists r, PyStr.rstrip s = String c r
       | EmptyString => True
       end.
Proof.
  induction s as [|c s (post & Heq & Hpost & Hlast & _)]; simpl.
  - exists ""; auto.
  - destruct (PyStr.rstrip s) as [|c' r] eqn:Er.
    + destruct (PyStr.isspace c) eqn:E.
      * exists (String c post). repeat split; auto.
        -- change (String c s = String c post). f_equal. exact Heq.
        -- simpl. now rewrite E.
        -- intros H; congruence.
      * exists post. repeat split; eauto.
        change (String c s = String c ("" +:+ post)). f_equal. exact Heq.
    + exists post. repeat split; eauto.
      change (String c s = String c (String c' r +:+ post)). f_equal. exact Heq.
Qed.

(** [strip] removes the whitespace around a string and nothing else. *)
Lemma strip_spec (s : string) : stripped_of s (PyStr.strip s).
Proof.
  unfold stripped_of, PyStr.strip.
  destruct (lstrip_spec s) as (pre & Heq & Hpre & Hhd).
  destruct (rstrip_spec (PyStr.lstrip s)) as (post & Heq' & Hpost & Hlast & Hkeep).
  exists pre, post. repeat split; auto.
  - now rewrite <- Heq'.
  - destruct (PyStr.lstrip s) as [|c l]; [exact I|].
    destruct (Hkeep Hhd) as [r ->]. exact Hhd.
Qed.

Lemma lstrip_spaces (pre rest : string) :
  PyStr.all PyStr.isspace pre = true ->
  PyStr.lstrip (pre +:+ rest) = PyStr.lstrip rest.
Proof.
  induction pre as [|c pre IH]; simpl; [reflexivity|].
  intros [Hc Hpre]%andb_true_iff. rewrite Hc. auto.
Qed.

Lemma rstrip_spaces (post : string) :
  PyStr.all PyStr.isspace post = true -> PyStr.rstrip post = "".
Proof.
  induction post as [|c post IH]; simpl; [reflexivity|].
  intros [Hc Hpost]%andb_true_iff. now rewrite (IH Hpost), Hc.
Qed.

Lemma rstrip_keeps (e post : string) :
  e <> "" ->
  match PyStr.last_char e with
  | Some c => PyStr.isspace c = false
  | None => True
  end ->
  PyStr.all PyStr.isspace post = true ->
  PyStr.rstrip (e +:+ post) = e.
Proof.
  intros Hne Hlast Hpost. induction e as [|c e IH]; [contradiction|].
  destruct e as [|c' e].
  - change (PyStr.rstrip (String c post) = String c "").
    simpl in *. now rewrite (rstrip_spaces post Hpost), Hlast.
  - assert (IH' : PyStr.rstrip (String c' e +:+ post) = String c' e)
      by (apply IH; [discriminate|exact Hlast]).
    change (match PyStr.rstrip (String c' e +:+ post) with
            | EmptyString =>
                if PyStr.isspace c then EmptyString else String c EmptyString
            | r => String c r
            end = String c (String c' e)).
    now rewrite IH'.
Qed.

(** ... and [stripped_of] leaves no other choice. *)
Lemma strip_unique (seg e : string) :
  stripped_of seg e -> e = PyStr.strip seg.
Proof.
  intros (pre & post & -> & Hpre & Hpost & Hhd & Hlast).
  unfold PyStr.strip. rewrite (lstrip_spaces pre _ Hpre).
  destruct e as [|c e].
  - change ("" +:+ post) with post.
    clear Hhd Hlast Hpre. induction post as [|c post IH]; [reflexivity|].
    simpl in *. apply andb_true_iff in Hpost as [Hc Hpost].
    rewrite Hc. auto.
  - change (PyStr.lstrip (String c e +:+ post))
      with (if PyStr.isspace c then PyStr.lstrip (e +:+ post)
            else String c (e +:+ post)).
    rewrite Hhd. symmetry. now apply (rstrip_keeps (String c e) post).
Qed.

(** [split] gives the segments between the separators. *)
Lemma split_spec (sep : ascii) (s : string) :
  segments_of sep s (PyStr.split sep s).
Proof.
  split; [apply split_nonempty|]. split; [apply split_join|apply split_no_sep].
Qed.

Lemma split_sep_free (sep : ascii) (seg : string) :
  PyStr.all (fun c => negb (Ascii.eqb c sep)) seg = true ->
  PyStr.split sep seg = [seg].
Proof.
  induction seg as [|c seg IH]; simpl; [reflexivity|].
  intros [Hc Hseg]%andb_true_iff. apply negb_true_iff in Hc.
  now rewrite Hc, (IH Hseg).
Qed.

Lemma split_app_sep (sep : ascii) (seg rest : string) :
  PyStr.all (fun c => negb (Ascii.eqb c sep)) seg = true ->
  PyStr.split sep (seg +:+ String sep rest) = seg :: PyStr.split sep rest.
Proof.
  induction seg as [|c seg IH]; simpl.
  - intros _. now rewrite Ascii.eqb_refl.
  - intros [Hc Hseg]%andb_true_iff. apply negb_true_iff in Hc.
    now rewrite Hc, (IH Hseg).
Qed.

(** ... and they are the only such segments. *)
Lemma split_unique (sep : ascii) (s : string) (segments : list string) :
  segments_of sep s segments -> segments = PyStr.split sep s.
Proof.
  intros (Hne & <- & Hall).
  destruct segments as [|seg rest]; [contradiction|]. clear Hne.
  revert seg Hall. induction rest as [|seg' rest IH]; intros seg Hall.
  - inversion Hall; subst. simpl. now rewrite split_sep_free.
  - inversion Hall; subst.
    change (PyStr.join (String sep "") (seg :: seg' :: rest))
      with (seg +:+ String sep (PyStr.join (String sep "") (seg' :: rest))).
    rewrite split_app_sep by assumption. now rewrite <- IH.
Qed.

(** ** C5: normalization of [testcase] and [gpi_extra] *)

(** C5. [str_to_list] turns a string into the sequence of its
    comma-separated segments, each stripped of the whitespace around it
    (so "a, b,c" becomes ["a","b","c"]); it returns a sequence, and any
    other value that is not a string, as it is; and applying it to its own
    output changes nothing. *)
Theorem str_to_list_normalizes :
  (forall s : string,
      exists segments elements,
        segments_of "," s segments
        /\ Forall2 stripped_of segments elements
        /\ str_to_list (PStr s) = PList (map PStr elements))
  /\ str_to_list (PStr "a, b,c") = PList [PStr "a"; PStr "b"; PStr "c"]
  /\ (forall l : list pyval, str_to_list (PList l) = PList l)
  /\ (forall v : pyval, (forall s, v <> PStr s) -> str_to_list v = v)
  /\ (forall v : pyval, str_to_list (str_to_list v) = str_to_list v).
Proof.
  split; [|repeat split].
  - intros s.
    exists (PyStr.split "," s), (map PyStr.strip (PyStr.split "," s)).
    split; [apply split_spec|]. split.
    + induction (PyStr.split "," s) as [|seg segs IH]; simpl;
        constructor; [apply strip_spec|exact IH].
    + simpl. now rewrite map_map.
  - intros v Hv. destruct v; try reflexivity. now destruct (Hv s).
  - intros v. destruct v; reflexivity.
Qed.

(** ** Running [Cocotb.env] *)

Ltac run_M :=
  unfold mbind, M_bind, mret, M_ret, gets, raise, modify, log; simpl.

Lemma default_tb_top_truthy (w : World) :
  TbTop_truthy (tb_top (tb (w_design w))) = true ->
  default_tb_top w = (Ok tt, w).
Proof. intros H. unfold default_tb_top. run_M. now rewrite H. Qed.

Lemma default_tb_top_rtl (w : World) (top : string) :
  TbTop_truthy (tb_top (tb (w_design w))) = false ->
  rtl_top (rtl (w_design w)) = Some top ->
  PyStr.truthy top = true ->
  default_tb_top w
  = (Ok tt, set_design (with_tb_top (TbTopSeq [top]) (w_design w)) w).
Proof.
  intros H1 H2 H3. unfold default_tb_top, assign_tb_top. run_M.
  now rewrite H1, H2, H3.
Qed.

Lemma default_tb_top_fails (w : World) :
  TbTop_truthy (tb_top (tb (w_design w))) = false ->
  truthy_opt (rtl_top (rtl (w_design w))) = false ->
  default_tb_top w = (Raise (ValueError (no_top_msg (w_design w))), w).
Proof.
  intros H1 H2. unfold default_tb_top. run_M. rewrite H1. simpl.
  destruct (rtl_top (rtl (w_design w))) as [top|]; simpl in *; [|reflexivity].
  now rewrite H2.
Qed.

Lemma defaulted_design_truthy (d : Design) :
  TbTop_truthy (tb_top (tb d)) = true -> defaulted_design d = d.
Proof. intros H. unfold defaulted_design. now rewrite H. Qed.

(** A call that passes both validations returns the table and leaves the
    store as it was, but for the default of [tb.top] and the log. *)
Lemma env_ok (w : World) (cc : CocotbTestbench) :
  tb_cocotb (tb (w_design w)) = Some cc ->
  nonempty (tb_sources (tb (w_design w))) = true ->
  TbTop_truthy (tb_top (tb (w_design w)))
  || truthy_opt (rtl_top (rtl (w_design w))) = true ->
  let d' := defaulted_design (w_design w) in
  let mp := module_and_py_path d' cc (w_environ w) in
  let table :=
    env_table (w_self w) cc (fst mp) (resolve_toplevel d' cc) (snd mp) in
  env w = (Ok table, add_log (env_log_record table) (set_design d' w)).
Proof.
  intros Hcc Hsrc Htop. destruct w as [self d fr environ files lg].
  simpl in *. unfold env, defaulted_design.
  unfold mbind at 1 2, M_bind at 1 2, gets at 1 2. cbn [w_self w_design].
  rewrite Hcc, Hsrc. cbn [negb].
  unfold mbind at 1, M_bind at 1.
  destruct (TbTop_truthy (tb_top (tb d))) eqn:Et.
  - rewrite default_tb_top_truthy by exact Et.
    run_M. destruct (module_and_py_path d cc environ); reflexivity.
  - simpl in Htop. destruct (rtl_top (rtl d)) as [top|] eqn:Er; [|discriminate].
    rewrite (default_tb_top_rtl _ top) by assumption.
    run_M.
    destruct (module_and_py_path (with_tb_top (TbTopSeq [top]) d) cc environ);
      reflexivity.
Qed.

(** The first validation: no testbench source. *)
Lemma env_no_sources (w : World) (cc : CocotbTestbench) :
  tb_cocotb (tb (w_design w)) = Some cc ->
  tb_sources (tb (w_design w)) = [] ->
  env w = (Raise (ValueError sources_empty_msg), w).
Proof.
  intros Hcc Hsrc. unfold env. run_M. now rewrite Hcc, Hsrc.
Qed.

(** The second validation: neither [tb.top] nor [rtl.top]. *)
Lemma env_no_top (w : World) (cc : CocotbTestbench) :
  tb_cocotb (tb (w_design w)) = Some cc ->
  nonempty (tb_sources (tb (w_design w))) = true ->
  TbTop_truthy (tb_top (tb (w_design w))) = false ->
  truthy_opt (rtl_top (rtl (w_design w))) = false ->
  env w = (Raise (ValueError (no_top_msg (w_design w))), w).
Proof.
  intros Hcc Hsrc Ht Hr. unfold env.
  unfold mbind at 1 2, M_bind at 1 2, gets at 1 2. cbn [fst snd].
  rewrite Hcc, Hsrc. cbn [negb].
  unfold mbind at 1, M_bind at 1.
  now rewrite default_tb_top_fails.
Qed.

(** Cocotb not requested. *)
Lemma env_not_requested (w : World) :
  tb_cocotb (tb (w_design w)) = None -> env w = (Ok ∅, w).
Proof. intros H. unfold env. run_M. now rewrite H. Qed.

(** ** The entries of the table *)

Ltac table_lookup :=
  unfold env_table;
  repeat match goal with
         | |- context [if ?b then _ else _] => destruct b
         | |- context [match ?o with Some _ => _ | None => _ end] => destruct o
         end;
  simplify_map_eq; reflexivity.

Section EnvTable.

Variables (self : CocotbObj) (cocotb : CocotbTestbench).
Variables (coco_module toplevel : option string) (py_path : list string).

Lemma env_table_MODULE :
  env_table self cocotb coco_module toplevel py_path !! "MODULE"
  = Some (of_optional_str coco_module).
Proof. destruct coco_module; table_lookup. Qed.

Lemma env_table_TOPLEVEL :
  env_table self cocotb coco_module toplevel py_path !! "TOPLEVEL"
  = Some (of_optional_str toplevel).
Proof. destruct toplevel; table_lookup. Qed.

Lemma env_table_PYTHONPATH :
  env_table self cocotb coco_module toplevel py_path !! "PYTHONPATH"
  = Some (PStr (PyStr.join ":" py_path)).
Proof. table_lookup. Qed.

End EnvTable.

(** ** The top cocotb source, the module and the search path *)

Lemma sources_of_type_tb (d : Design) :
  sources_of_type d Cocotb false true = List.filter is_cocotb (tb_sources (tb d)).
Proof.
  unfold sources_of_type. simpl. apply List.filter_ext. intros src.
  unfold is_cocotb. destruct (ds_type src) as [[|tag]|]; reflexivity.
Qed.

Lemma filter_none {A : Type} (p : A -> bool) (l : list A) :
  Forall (fun x => p x = false) l -> List.filter p l = [].
Proof.
  induction 1 as [|x l Hx _ IH]; simpl; [reflexivity|]. now rewrite Hx.
Qed.

(** [top_cocotb_source] is the file of the last cocotb entry of
    [tb.sources]. *)
Lemma top_cocotb_source_last (d : Design) (o : option DesignSource) :
  last_cocotb_source (tb_sources (tb d)) o ->
  top_cocotb_source d = ds_file <$> o.
Proof.
  unfold top_cocotb_source. rewrite sources_of_type_tb.
  destruct o as [src|]; simpl.
  - intros (pre & post & -> & Hsrc & Hpost).
    rewrite List.filter_app. simpl. rewrite Hsrc, (filter_none _ _ Hpost).
    rewrite last_snoc. now destruct (List.filter is_cocotb pre).
  - intros Hall. now rewrite (filter_none _ _ Hall).
Qed.

(** Every list of sources has a last cocotb entry, or none. *)
Lemma last_cocotb_source_exists (sources : list DesignSource) :
  exists o, last_cocotb_source sources o.
Proof.
  induction sources as [|x l [o Ho]].
  - exists None. constructor.
  - destruct o as [src|].
    + destruct Ho as (pre & post & -> & Hsrc & Hpost).
      exists (Some src). exists (x :: pre), post. auto.
    + destruct (is_cocotb x) eqn:Ex.
      * exists (Some x). exists [], l. auto.
      * exists None. constructor; assumption.
Qed.

Lemma top_cocotb_source_defaulted (d : Design) :
  top_cocotb_source (defaulted_design d) = top_cocotb_source d.
Proof.
  unfold defaulted_design.
  destruct (TbTop_truthy (tb_top (tb d))); [reflexivity|].
  destruct (rtl_top (rtl d)); reflexivity.
Qed.

Lemma root_path_defaulted (d : Design) :
  root_path (defaulted_design d) = root_path d.
Proof.
  unfold defaulted_design.
  destruct (TbTop_truthy (tb_top (tb d))); [reflexivity|].
  destruct (rtl_top (rtl d)); reflexivity.
Qed.

Lemma removelast_nil_length {A : Type} (l : list A) :
  (1 <? length l)%nat = nonempty (removelast l).
Proof. destruct l as [|x [|y l]]; reflexivity. Qed.

Lemma module_path_dir (d : Design) (segments : list string) :
  module_path d segments = module_dir (root_path d) (removelast segments).
Proof.
  unfold module_path, module_dir.
  rewrite removelast_nil_length.
  destruct (removelast segments); simpl; [reflexivity|].
  now destruct (OsPath.isabs _).
Qed.

(** The module name and the search path in closed form. *)
Lemma module_and_py_path_closed (d : Design) (cc : CocotbTestbench)
    (environ : gmap string string) (o : option DesignSource) :
  last_cocotb_source (tb_sources (tb d)) o ->
  module_and_py_path d cc environ
  = (if truthy_opt (cc_module cc)
     then last (PyStr.split "/" (default "" (cc_module cc)))
     else Path.stem <$> (ds_file <$> o),
     (existing_py_path environ
      ++ module_entries (root_path d) (cc_module cc)
      ++ source_entries o)%list).
Proof.
  intros Ho. unfold module_and_py_path.
  rewrite (top_cocotb_source_last d o Ho).
  unfold existing_py_path, module_entries, source_entries.
  assert (Hex : (if truthy_opt (environ !! "PYTHONPATH")
                 then ([] ++ PyStr.split OsPath.pathsep
                               (default "" (environ !! "PYTHONPATH")))%list
                 else [])
                = match environ !! "PYTHONPATH" with
                  | Some p => if PyStr.truthy p then PyStr.split ":" p else []
                  | None => []
                  end).
  { destruct (environ !! "PYTHONPATH") as [p|]; simpl; reflexivity. }
  rewrite Hex. clear Hex.
  destruct (cc_module cc) as [m|]; simpl.
  - destruct (PyStr.truthy m) eqn:Em.
    + rewrite module_path_dir.
      destruct o; simpl; now rewrite <- ?app_assoc.
    + destruct o; simpl; now rewrite ?app_nil_r.
  - destruct o; simpl; now rewrite ?app_nil_r.
Qed.

(** The toplevel in closed form. *)
Lemma resolve_toplevel_defaulted (d : Design) (cc : CocotbTestbench) :
  TbTop_truthy (tb_top (tb d)) || truthy_opt (rtl_top (rtl d)) = true ->
  resolve_toplevel (defaulted_design d) cc = reported_toplevel d cc.
Proof.
  intros Htop. unfold resolve_toplevel, reported_toplevel, defaulted_design.
  destruct (truthy_opt (cc_toplevel cc)) eqn:Ec; simpl.
  - now destruct (TbTop_truthy (tb_top (tb d))), (rtl_top (rtl d)).
  - destruct (TbTop_truthy (tb_top (tb d))) eqn:Et; simpl in *.
    + rewrite Et. destruct (tb_top (tb d)); simpl in *; congruence.
    + destruct (rtl_top (rtl d)); [reflexivity|discriminate].
Qed.

Lemma tb_sources_defaulted (d : Design) :
  tb_sources (tb (defaulted_design d)) = tb_sources (tb d).
Proof.
  unfold defaulted_design.
  destruct (TbTop_truthy (tb_top (tb d))); [reflexivity|].
  destruct (rtl_top (rtl d)); reflexivity.
Qed.

(** The search path and the module of a successful call, in closed form. *)
Lemma env_ok_closed (w : World) (cc : CocotbTestbench)
    (o : option DesignSource) :
  tb_cocotb (tb (w_design w)) = Some cc ->
  nonempty (tb_sources (tb (w_design w))) = true ->
  TbTop_truthy (tb_top (tb (w_design w)))
  || truthy_opt (rtl_top (rtl (w_design w))) = true ->
  last_cocotb_source (tb_sources (tb (w_design w))) o ->
  exists table w',
    env w = (Ok table, w')
    /\ table !! "MODULE"
       = Some (of_optional_str
                 (if truthy_opt (cc_module cc)
                  then last (PyStr.split "/" (default "" (cc_module cc)))
                  else Path.stem <$> (ds_file <$> o)))
    /\ table !! "PYTHONPATH"
       = Some (PStr (PyStr.join ":"
                 (existing_py_path (w_environ w)
                  ++ module_entries (root_path (w_design w)) (cc_module cc)
                  ++ source_entries o)%list)).
Proof.
  intros Hcc Hsrc Htop Ho.
  pose proof (env_ok w cc Hcc Hsrc Htop) as Hrun. cbv zeta in Hrun.
  eexists _, _. split; [exact Hrun|].
  rewrite env_table_MODULE, env_table_PYTHONPATH.
  rewrite <- (tb_sources_defaulted (w_design w)) in Ho.
  rewrite (module_and_py_path_closed _ cc _ o Ho), root_path_defaulted.
  split; reflexivity.
Qed.

(** A list that is not empty is its front and its last element. *)
Lemma last_removelast {A : Type} (l : list A) :
  l <> [] -> exists x, l = (removelast l ++ [x])%list /\ last l = Some x.
Proof.
  intros Hl. destruct (last l) as [x|] eqn:El.
  - exists x. split; [|reflexivity].
    apply last_Some in El as [l' ->]. now rewrite removelast_last.
  - apply last_None in El. contradiction.
Qed.

(** ** C9: cocotb not requested *)

(** C9. When [tb.cocotb] is unset, [Cocotb.env] returns the empty table,
    whatever the settings and the other fields of the design are, and the
    store is left as it was. *)
Theorem env_cocotb_not_requested (w : World) :
  tb_cocotb (tb (w_design w)) = None ->
  env w = (Ok ∅, w).
Proof. apply env_not_requested. Qed.

Lemma env_cocotb_not_requested_witness :
  tb_cocotb (tb (w_design w_not_requested)) = None
  /\ env w_not_requested = (Ok ∅, w_not_requested).
Proof.
  split; [reflexivity|].
  apply (env_cocotb_not_requested w_not_requested). reflexivity.
Defined.

(** ** C4: cocotb requested, no testbench source *)

(** C4. When [tb.cocotb] is set and [tb.sources] is empty, [Cocotb.env]
    raises the error of the first validation and returns no table. *)
Theorem env_empty_sources_fails (w : World) (cc : CocotbTestbench) :
  tb_cocotb (tb (w_design w)) = Some cc ->
  tb_sources (tb (w_design w)) = [] ->
  env w = (Raise (ValueError sources_empty_msg), w)
  /\ forall table w', env w <> (Ok table, w').
Proof.
  intros Hcc Hsrc. rewrite (env_no_sources w cc Hcc Hsrc).
  split; [reflexivity|]. intros table w' H. discriminate H.
Qed.

Lemma env_empty_sources_fails_witness :
  tb_cocotb (tb (w_design w_no_sources)) = Some cc_plain
  /\ tb_sources (tb (w_design w_no_sources)) = []
  /\ env w_no_sources = (Raise (ValueError sources_empty_msg), w_no_sources)
  /\ forall table w', env w_no_sources <> (Ok table, w').
Proof.
  split; [reflexivity|]. split; [reflexivity|].
  apply (env_empty_sources_fails w_no_sources cc_plain); reflexivity.
Defined.

(** ** C1: the toplevel *)

(** With [tb.cocotb.toplevel] set to "dut" and neither [tb.top] nor
    [rtl.top], the call fails: the validation of lines 108-112 does not
    look at the explicit toplevel. *)
Lemma env_explicit_toplevel_still_fails :
  cc_toplevel cc_explicit_toplevel = Some "dut"
  /\ nonempty (tb_sources (tb (w_design w_explicit_toplevel_only))) = true
  /\ fst (env w_explicit_toplevel_only)
     = Raise (ValueError
         "[cocotb] In design adder: Either `tb.top` or `rtl.top` must be specified.").
Proof. repeat split. Qed.

(** C1, as the code has it. With cocotb requested and a testbench source
    present, [Cocotb.env] fails on the toplevel exactly when [tb.top] and
    [rtl.top] are both unset, whether [tb.cocotb.toplevel] is set or not.
    Otherwise it succeeds, a [tb.top] that was unset has become the
    one-element sequence of [rtl.top], and TOPLEVEL is the explicit
    [tb.cocotb.toplevel] if set, else the first element of [tb.top] (or
    [tb.top] itself when it is one string), else [rtl.top]. *)
Theorem env_toplevel_resolution (w : World) (cc : CocotbTestbench) :
  tb_cocotb (tb (w_design w)) = Some cc ->
  nonempty (tb_sources (tb (w_design w))) = true ->
  (TbTop_truthy (tb_top (tb (w_design w))) = false ->
   truthy_opt (rtl_top (rtl (w_design w))) = false ->
   env w = (Raise (ValueError (no_top_msg (w_design w))), w))
  /\ (TbTop_truthy (tb_top (tb (w_design w)))
      || truthy_opt (rtl_top (rtl (w_design w))) = true ->
      exists table w',
        env w = (Ok table, w')
        /\ table !! "TOPLEVEL"
           = Some (of_optional_str (reported_toplevel (w_design w) cc))
        /\ w_design w' = defaulted_design (w_design w)).
Proof.
  intros Hcc Hsrc. split.
  - intros Ht Hr. exact (env_no_top w cc Hcc Hsrc Ht Hr).
  - intros Htop. pose proof (env_ok w cc Hcc Hsrc Htop) as Hrun.
    cbv zeta in Hrun. eexists _, _. split; [exact Hrun|].
    split; [|reflexivity].
    rewrite env_table_TOPLEVEL.
    now rewrite (resolve_toplevel_defaulted _ _ Htop).
Qed.

Lemma env_toplevel_resolution_witness :
  tb_cocotb (tb (w_design w_rtl_fallback)) = Some cc_pkg_mod
  /\ nonempty (tb_sources (tb (w_design w_rtl_fallback))) = true
  /\ exists table w',
       env w_rtl_fallback = (Ok table, w')
       /\ table !! "TOPLEVEL" = Some (PStr "adder")
       /\ tb_top (tb (w_design w')) = TbTopSeq ["adder"].
Proof.
  split; [reflexivity|]. split; [reflexivity|].
  destruct (env_toplevel_resolution w_rtl_fallback cc_pkg_mod
              eq_refl eq_refl) as [_ Hok].
  destruct (Hok eq_refl) as (table & w' & Hrun & Htl & Hd).
  exists table, w'. split; [exact Hrun|]. split; [exact Htl|].
  rewrite Hd. reflexivity.
Defined.

(** ** C8: what a call changes in the store *)

(** With no [tb.top] and [rtl.top] = "adder", the call assigns to
    [design.tb.top] (line 113): the design after the call is not the design
    before it. *)
Lemma env_writes_tb_top :
  tb_top (tb (w_design w_rtl_fallback)) = TbTopNone
  /\ tb_top (tb (w_design (snd (env w_rtl_fallback)))) = TbTopSeq ["adder"]
  /\ w_design (snd (env w_rtl_fallback)) <> w_design w_rtl_fallback.
Proof.
  split; [reflexivity|]. split; [reflexivity|].
  intros H. apply (f_equal (fun d => tb_top (tb d))) in H. discriminate H.
Qed.

(** C8, as the code has it. A call of [Cocotb.env] leaves the settings,
    the flow results, the process environment and the files as they were,
    and every field of the design other than [tb.top]. It leaves [tb.top]
    as it was when [tb.top] was set, when cocotb is not requested, and when
    the call fails (then the whole store is unchanged); a successful call
    on a design with cocotb requested and [tb.top] unset stores the
    one-element sequence of [rtl.top] in [tb.top]. *)
Theorem env_frame (w : World) :
  w_self (snd (env w)) = w_self w
  /\ w_flow_results (snd (env w)) = w_flow_results w
  /\ w_environ (snd (env w)) = w_environ w
  /\ w_files (snd (env w)) = w_files w
  /\ name (w_design (snd (env w))) = name (w_design w)
  /\ root_path (w_design (snd (env w))) = root_path (w_design w)
  /\ rtl (w_design (snd (env w))) = rtl (w_design w)
  /\ tb_sources (tb (w_design (snd (env w)))) = tb_sources (tb (w_design w))
  /\ tb_cocotb (tb (w_design (snd (env w)))) = tb_cocotb (tb (w_design w))
  /\ (TbTop_truthy (tb_top (tb (w_design w))) = true ->
      w_design (snd (env w)) = w_design w)
  /\ (tb_cocotb (tb (w_design w)) = None -> snd (env w) = w)
  /\ (forall e, fst (env w) = Raise e -> snd (env w) = w)
  /\ (forall table, fst (env w) = Ok table ->
      tb_cocotb (tb (w_design w)) <> None ->
      w_design (snd (env w)) = defaulted_design (w_design w)
      /\ (TbTop_truthy (tb_top (tb (w_design w))) = false ->
          exists top, rtl_top (rtl (w_design w)) = Some top
                      /\ tb_top (tb (w_design (snd (env w)))) = TbTopSeq [top])).
Proof.
  destruct (tb_cocotb (tb (w_design w))) as [cc|] eqn:Hcc.
  2: { rewrite (env_not_requested w Hcc). simpl.
       repeat split; auto; try congruence. }
  destruct (tb_sources (tb (w_design w))) as [|src srcs] eqn:Hsrc.
  { rewrite (env_no_sources w cc Hcc Hsrc). simpl.
    repeat split; auto; try congruence; intros; discriminate. }
  assert (Hne : nonempty (tb_sources (tb (w_design w))) = true)
    by now rewrite Hsrc.
  destruct (TbTop_truthy (tb_top (tb (w_design w)))
            || truthy_opt (rtl_top (rtl (w_design w)))) eqn:Htop.
  - pose proof (env_ok w cc Hcc Hne Htop) as Hrun. cbv zeta in Hrun.
    rewrite Hrun. cbn [fst snd]. clear Hrun.
    unfold defaulted_design.
    destruct (TbTop_truthy (tb_top (tb (w_design w)))) eqn:Et.
    + simpl. rewrite Hsrc, Hcc.
      repeat split; auto; try congruence; intros; discriminate.
    + simpl in Htop.
      destruct (rtl_top (rtl (w_design w))) as [top|] eqn:Er; [|discriminate].
      simpl. rewrite Hsrc.
      repeat split; auto; try congruence; try (intros; discriminate).
      intros _. exists top. auto.
  - apply orb_false_iff in Htop as [Ht Hr].
    rewrite (env_no_top w cc Hcc Hne Ht Hr). simpl. rewrite Hsrc, Ht.
    repeat split; auto; try congruence; intros; discriminate.
Qed.

(** ** C10: no module name *)

(** C10. With cocotb requested, [tb.cocotb.module] unset and no cocotb
    source among [tb.sources], a call that passes the two validations
    succeeds and the MODULE entry of its table is [None]. *)
Theorem env_module_none (w : World) (cc : CocotbTestbench) :
  tb_cocotb (tb (w_design w)) = Some cc ->
  truthy_opt (cc_module cc) = false ->
  last_cocotb_source (tb_sources (tb (w_design w))) None ->
  nonempty (tb_sources (tb (w_design w))) = true ->
  TbTop_truthy (tb_top (tb (w_design w)))
  || truthy_opt (rtl_top (rtl (w_design w))) = true ->
  exists table w',
    env w = (Ok table, w')
    /\ table !! "MODULE" = Some PNone
    /\ forall s, table !! "MODULE" <> Some (PStr s).
Proof.
  intros Hcc Hmod Hnone Hsrc Htop.
  pose proof (env_ok w cc Hcc Hsrc Htop) as Hrun. cbv zeta in Hrun.
  eexists _, _. split; [exact Hrun|].
  rewrite env_table_MODULE.
  assert (Hnone' : last_cocotb_source
                     (tb_sources (tb (defaulted_design (w_design w)))) None).
  { unfold defaulted_design.
    destruct (TbTop_truthy _); [exact Hnone|].
    destruct (rtl_top _); exact Hnone. }
  rewrite (module_and_py_path_closed _ cc _ None Hnone'). simpl.
  rewrite Hmod. simpl. split; [reflexivity|]. intros s H. discriminate H.
Qed.

Lemma env_module_none_witness :
  tb_cocotb (tb (w_design w_no_module)) = Some cc_plain
  /\ truthy_opt (cc_module cc_plain) = false
  /\ last_cocotb_source (tb_sources (tb (w_design w_no_module))) None
  /\ nonempty (tb_sources (tb (w_design w_no_module))) = true
  /\ exists table w',
       env w_no_module = (Ok table, w')
       /\ table !! "MODULE" = Some PNone
       /\ forall s, table !! "MODULE" <> Some (PStr s).
Proof.
  assert (Hnone : last_cocotb_source
                    (tb_sources (tb (w_design w_no_module))) None).
  { simpl. repeat constructor. }
  split; [reflexivity|]. split; [reflexivity|]. split; [exact Hnone|].
  split; [reflexivity|].
  apply (env_module_none w_no_module cc_plain); try reflexivity. exact Hnone.
Defined.

(** ** C6: the module string *)



(** ** File names: what [rfind], [name] and [stem] compute *)

Section StemFacts.

Variable c : ascii.

Lemma length_append_str (a b : string) :
  String.length (a +:+ b) = (String.length a + String.length b)%nat.
Proof.
  induction a as [|x a IH]; [reflexivity|].
  change (S (String.length (a +:+ b))
          = S (String.length a + String.length b)).
  now rewrite IH.
Qed.

Lemma rfind_none_all (s : string) :
  PyStr.rfind c s = None
  <-> PyStr.all (fun x => negb (Ascii.eqb x c)) s = true.
Proof.
  induction s as [|x s IH]; simpl; [tauto|].
  destruct (PyStr.rfind c s) as [i|].
  - split; [discriminate|]. intros [_ H]%andb_true_iff.
    apply IH in H. discriminate H.
  - destruct (Ascii.eqb x c); simpl; [split; discriminate|].
    split; intros _; [now apply IH|reflexivity].
Qed.

(** The index [rfind] gives is that of an occurrence with none after it. *)
Lemma rfind_some (s : string) (i : nat) :
  PyStr.rfind c s = Some i ->
  exists ext,
    s = PyStr.take i s +:+ String c ext
    /\ PyStr.all (fun x => negb (Ascii.eqb x c)) ext = true
    /\ String.length (PyStr.take i s) = i.
Proof.
  revert i. induction s as [|x s IH]; intros i; simpl; [discriminate|].
  destruct (PyStr.rfind c s) as [j|] eqn:Er.
  - intros [= <-]. destruct (IH j eq_refl) as (ext & Heq & Hext & Hlen).
    exists ext. simpl. rewrite Hlen. repeat split; auto.
    change (String x s = String x (PyStr.take j s +:+ String c ext)).
    now f_equal.
  - destruct (Ascii.eqb_spec x c) as [->|Hne]; [|discriminate].
    intros [= <-]. exists s. repeat split. now apply rfind_none_all.
Qed.

(** An occurrence with none after it is the one [rfind] gives. *)
Lemma rfind_last (a ext : string) :
  PyStr.all (fun x => negb (Ascii.eqb x c)) ext = true ->
  PyStr.rfind c (a +:+ String c ext) = Some (String.length a).
Proof.
  intros Hext. induction a as [|x a IH].
  - change (PyStr.rfind c (String c ext) = Some 0%nat). simpl.
    apply rfind_none_all in Hext. now rewrite Hext, Ascii.eqb_refl.
  - change (PyStr.rfind c (String x (a +:+ String c ext))
            = Some (S (String.length a))).
    simpl. now rewrite IH.
Qed.

End StemFacts.

Lemma length_zero_str (s : string) : String.length s = 0%nat -> s = "".
Proof. destruct s; [reflexivity|discriminate]. Qed.

(** [Path.name] is the last component. *)
Lemma name_last_component (p : Path.t) :
  last_component (Path.parts p) (Path.name p).
Proof.
  unfold last_component, Path.name.
  destruct (Path.parts p) as [|a l] eqn:E; [left; auto|].
  right. exists (removelast (a :: l)).
  apply app_removelast_last. discriminate.
Qed.

(** [Path.stem] is the stem of the name. *)
Lemma stem_filename_stem (p : Path.t) :
  filename_stem (Path.name p) (Path.stem p).
Proof.
  unfold filename_stem, Path.stem.
  destruct (PyStr.rfind "." (Path.name p)) as [i|] eqn:Er.
  - destruct (rfind_some "." _ i Er) as (ext & Heq & Hext & Hlen).
    assert (Hl : String.length (Path.name p) = (i + S (String.length ext))%nat).
    { rewrite Heq at 1. rewrite length_append_str, Hlen. reflexivity. }
    destruct ((0 <? i)%nat && (i <? String.length (Path.name p) - 1)%nat)
      eqn:Ec.
    + left. exists ext.
      apply andb_true_iff in Ec as [Hi Hj].
      apply Nat.ltb_lt in Hi. apply Nat.ltb_lt in Hj.
      split; [exact Heq|]. split; [|split; [|exact Hext]].
      * intros H0. rewrite H0 in Hlen. simpl in Hlen. lia.
      * intros ->. simpl in Hl. lia.
    + right. split; [reflexivity|]. intros s e Hs He.
      assert (Hi : i = String.length s).
      { rewrite Hs, (rfind_last "." s e He) in Er. now injection Er. }
      assert (Hl' : String.length (Path.name p)
                    = (String.length s + S (String.length e))%nat).
      { rewrite Hs at 1. now rewrite length_append_str. }
      apply andb_false_iff in Ec as [Hc|Hc]; apply Nat.ltb_ge in Hc.
      * left. apply length_zero_str. lia.
      * right. apply length_zero_str. lia.
  - right. split; [reflexivity|]. intros s e Hs He.
    rewrite Hs, (rfind_last "." s e He) in Er. discriminate Er.
Qed.

(** A file name has one stem only. *)
Lemma filename_stem_unique (name st st' : string) :
  filename_stem name st -> filename_stem name st' -> st = st'.
Proof.
  assert (Hdec : forall a e a' e',
             a +:+ String "." e = a' +:+ String "." e' ->
             PyStr.all (fun c => negb (Ascii.eqb c ".")) e = true ->
             PyStr.all (fun c => negb (Ascii.eqb c ".")) e' = true ->
             a = a').
  { intros a e a' e' Heq He He'.
    pose proof (rfind_last "." a e He) as H1.
    pose proof (rfind_last "." a' e' He') as H2.
    rewrite Heq, H2 in H1. injection H1 as Hlen.
    clear He He' H2. revert a' Heq Hlen.
    induction a as [|x a IH]; intros [|x' a'] Heq Hlen;
      try discriminate Hlen; [reflexivity|].
    change (String x (a +:+ String "." e) = String x' (a' +:+ String "." e'))
      in Heq.
    injection Heq as -> Heq. f_equal. apply IH; [exact Heq|].
    simpl in Hlen. lia. }
  intros [(e & Hn & Hs & He & Hall)|[-> Hno]]
         [(e' & Hn' & Hs' & He' & Hall')|[-> Hno']].
  - rewrite Hn in Hn'. exact (Hdec _ _ _ _ Hn' Hall Hall').
  - destruct (Hno' st e Hn Hall); contradiction.
  - destruct (Hno st' e' Hn' Hall'); contradiction.
  - reflexivity.
Qed.

(** ** C7: the order of the search path *)

(** C7. PYTHONPATH is, joined with ":", the entries of the process's
    PYTHONPATH in their order, then the module directory when
    [tb.cocotb.module] is set, then the directory of the top cocotb
    source, the last entry of [tb.sources] whose type tag is cocotb, when
    there is one, whether a module is set or not. With no module set and a
    top cocotb source, MODULE is the stem of its file name: the last
    component of the file's path without its last suffix. *)
Theorem env_pythonpath_order (w : World) (cc : CocotbTestbench)
    (o : option DesignSource) :
  tb_cocotb (tb (w_design w)) = Some cc ->
  nonempty (tb_sources (tb (w_design w))) = true ->
  TbTop_truthy (tb_top (tb (w_design w)))
  || truthy_opt (rtl_top (rtl (w_design w))) = true ->
  last_cocotb_source (tb_sources (tb (w_design w))) o ->
  exists table w',
    env w = (Ok table, w')
    /\ table !! "PYTHONPATH"
       = Some (PStr (PyStr.join ":"
                 (existing_py_path (w_environ w)
                  ++ module_entries (root_path (w_design w)) (cc_module cc)
                  ++ source_entries o)%list))
    /\ (forall p, w_environ w !! "PYTHONPATH" = Some p -> PyStr.truthy p = true ->
        PyStr.join ":" (existing_py_path (w_environ w)) = p)
    /\ (truthy_opt (cc_module cc) = false ->
        forall src, o = Some src ->
        table !! "MODULE" = Some (PStr (Path.stem (ds_file src)))
        /\ exists file_name,
             last_component (Path.parts (ds_file src)) file_name
             /\ filename_stem file_name (Path.stem (ds_file src))).
Proof.
  intros Hcc Hsrc Htop Ho.
  destruct (env_ok_closed w cc o Hcc Hsrc Htop Ho)
    as (table & w' & Hrun & Hmod & Hpath).
  exists table, w'. split; [exact Hrun|]. split; [exact Hpath|]. split.
  - intros p Hp Hp'. unfold existing_py_path. rewrite Hp, Hp'.
    apply split_join.
  - intros Hm src ->. split; [now rewrite Hm in Hmod|].
    exists (Path.name (ds_file src)).
    split; [apply name_last_component|apply stem_filename_stem].
Qed.

Lemma env_pythonpath_order_witness :
  (last_cocotb_source (tb_sources (tb (w_design w_rtl_fallback)))
                      (Some cocotb_source)
   /\ exists table w',
        env w_rtl_fallback = (Ok table, w')
        /\ table !! "PYTHONPATH"
           = Some (PStr "/opt/lib:/usr/lib/py:/r/pkg:/r/tb"))
  /\ (last_cocotb_source (tb_sources (tb (w_design w_source_module)))
                         (Some cocotb_source)
      /\ truthy_opt (cc_module cc_plain) = false
      /\ exists table w',
           env w_source_module = (Ok table, w')
           /\ table !! "PYTHONPATH" = Some (PStr "/opt/lib:/r/tb")
           /\ table !! "MODULE" = Some (PStr "test_top")
           /\ filename_stem "test_top.py" "test_top").
Proof.
  assert (Hlast : last_cocotb_source [cocotb_source; rtl_source]
                                     (Some cocotb_source)).
  { exists [], [rtl_source]. repeat constructor. }
  split.
  - split; [exact Hlast|].
    destruct (env_pythonpath_order w_rtl_fallback cc_pkg_mod
                (Some cocotb_source) eq_refl eq_refl eq_refl Hlast)
      as (table & w' & Hrun & Hpath & _).
    exists table, w'. split; [exact Hrun|]. exact Hpath.
  - split; [exact Hlast|]. split; [reflexivity|].
    destruct (env_pythonpath_order w_source_module cc_plain
                (Some cocotb_source) eq_refl eq_refl eq_refl Hlast)
      as (table & w' & Hrun & Hpath & _ & Hstem).
    destruct (Hstem eq_refl cocotb_source eq_refl)
      as (Hmod & file_name & Hname & Hst).
    exists table, w'. split; [exact Hrun|]. split; [exact Hpath|].
    split; [exact Hmod|].
    destruct Hname as [[Hnil _]|[dirs Hparts]]; [discriminate Hnil|].
    apply (app_inj_tail ["r"; "tb"] dirs "test_top.py" file_name) in Hparts
      as [_ <-].
    exact Hst.
Defined.

(** ** Loading and summarizing the report *)


Lemma results_cached (w : World) (xml : JUnitXml) :
  cached_results (w_self w) = Some xml -> results w = (Ok xml, w).
Proof. intros H. unfold results, _results. run_M. now rewrite H. Qed.


(** Reading the report touches nothing but the slot of the cache. *)
Lemma results_frame (w w1 : World) (xml : JUnitXml) :
  results w = (Ok xml, w1) ->
  w_flow_results w1 = w_flow_results w /\ w_design w1 = w_design w
  /\ w_environ w1 = w_environ w /\ w_files w1 = w_files w
  /\ w_log w1 = w_log w.
Proof.
  unfold results, _results, load_results. run_M.
  destruct (cached_results (w_self w)).
  - intros [= _ <-]. auto.
  - destruct (w_files w !! results_xml (w_self w)) as [[xml'|e]|];
      simpl; intros [= _ <-]; auto.
Qed.

(** The summary in closed form. *)
Lemma add_results_run (w w1 : World) (xml : JUnitXml) (prefix : string) :
  results w = (Ok xml, w1) ->
  exists w2,
    add_results prefix w = (Ok (negb (summary_failed xml)), w2)
    /\ w_flow_results w2
       = (if summary_failed xml
          then <["success" := PBool false]>
                 (with_counters prefix xml (w_flow_results w))
          else with_counters prefix xml (w_flow_results w))
    /\ w_self w2 = w_self w1 /\ w_design w2 = w_design w.
Proof.
  intros Hres. destruct (results_frame w w1 xml Hres) as (Hfr & Hd & _).
  unfold add_results, summary_failed, with_counters.
  unfold mbind at 1, M_bind at 1. rewrite Hres. rewrite <- Hfr, <- Hd.
  unfold assign_flow_result. run_M.
  destruct (truthy_int (tests xml)), (truthy_int (errors xml)),
    (truthy_int (failures xml)); simpl; eexists; repeat split.
Qed.

(** *** The keys of the summary are distinct *)

Lemma append_inj_l (p a b : string) : p +:+ a = p +:+ b -> a = b.
Proof.
  induction p as [|c p IH]; simpl; [auto|]. intros [= H]. auto.
Qed.

Ltac not_a_suffix H p :=
  do 8 (destruct p as [|? p]; simpl in H;
        [discriminate H | first [discriminate H | injection H as _ H]]).

Lemma success_not_counter (p suffix : string) :
  In suffix ["tests"; "errors"; "failures"; "skipped"; "time"] ->
  p +:+ suffix <> "success".
Proof.
  simpl. intros [<-|[<-|[<-|[<-|[<-|[]]]]]] H; not_a_suffix H p.
Qed.

Ltac key_ne :=
  let H := fresh in
  intros H;
  first [ apply append_inj_l in H; discriminate H
        | apply success_not_counter in H; [exact H | simpl; tauto]
        | symmetry in H; apply success_not_counter in H;
          [exact H | simpl; tauto] ].

Lemma with_counters_lookup (prefix : string) (xml : JUnitXml)
    (fr : gmap string pyval) :
  with_counters prefix xml fr !! (prefix +:+ "tests") = Some (PInt (tests xml))
  /\ with_counters prefix xml fr !! (prefix +:+ "errors")
     = Some (PInt (errors xml))
  /\ with_counters prefix xml fr !! (prefix +:+ "failures")
     = Some (PInt (failures xml))
  /\ with_counters prefix xml fr !! (prefix +:+ "skipped")
     = Some (PInt (skipped xml))
  /\ with_counters prefix xml fr !! (prefix +:+ "time")
     = Some (PFloat (time xml))
  /\ with_counters prefix xml fr !! "success" = fr !! "success".
Proof.
  unfold with_counters.
  repeat split;
    repeat first [ rewrite lookup_insert_eq; reflexivity
                 | rewrite lookup_insert_ne by key_ne ];
    reflexivity.
Qed.

Lemma with_counters_other (prefix : string) (xml : JUnitXml)
    (fr : gmap string pyval) (k : string) :
  ~ In k [prefix +:+ "tests"; prefix +:+ "errors"; prefix +:+ "failures";
          prefix +:+ "skipped"; prefix +:+ "time"] ->
  with_counters prefix xml fr !! k = fr !! k.
Proof.
  intros Hk. unfold with_counters.
  rewrite !lookup_insert_ne; [reflexivity|..];
    intros <-; apply Hk; simpl; tauto.
Qed.

Lemma summary_failed_truthy (xml : JUnitXml) :
  summary_failed xml = true
  <-> tests xml = 0 \/ errors xml <> 0 \/ failures xml <> 0.
Proof.
  unfold summary_failed, truthy_int.
  rewrite !orb_true_iff, !negb_true_iff, negb_false_iff, !Z.eqb_neq, Z.eqb_eq.
  tauto.
Qed.

(** ** C2: the summary *)

(** C2. For a report whose error and failure counters are counts (not
    negative), [add_results] with prefix [p] stores the report's own
    counters [tests], [errors], [failures], [skipped] and [time] under
    [p]+"tests", [p]+"errors", [p]+"failures", [p]+"skipped" and
    [p]+"time"; success is true unless [tests] is 0 or [errors] > 0 or
    [failures] > 0 (the code tests the two counters for being non-zero);
    the key "success" is set to [False] when success is false and is not
    written when it is true; no other key changes; and the call returns
    success. *)
Theorem add_results_summary (w w1 : World) (xml : JUnitXml) (prefix : string) :
  results w = (Ok xml, w1) ->
  0 <= errors xml ->
  0 <= failures xml ->
  exists success w2,
    add_results prefix w = (Ok success, w2)
    /\ (success = true
        <-> ~ (tests xml = 0 \/ errors xml > 0 \/ failures xml > 0))
    /\ (success = true
        <-> ~ (tests xml = 0 \/ errors xml <> 0 \/ failures xml <> 0))
    /\ w_flow_results w2 !! (prefix +:+ "tests") = Some (PInt (tests xml))
    /\ w_flow_results w2 !! (prefix +:+ "errors") = Some (PInt (errors xml))
    /\ w_flow_results w2 !! (prefix +:+ "failures")
       = Some (PInt (failures xml))
    /\ w_flow_results w2 !! (prefix +:+ "skipped") = Some (PInt (skipped xml))
    /\ w_flow_results w2 !! (prefix +:+ "time") = Some (PFloat (time xml))
    /\ (success = false -> w_flow_results w2 !! "success" = Some (PBool false))
    /\ (success = true ->
        w_flow_results w2 !! "success" = w_flow_results w !! "success")
    /\ (forall k,
        ~ In k [prefix +:+ "tests"; prefix +:+ "errors"; prefix +:+ "failures";
                prefix +:+ "skipped"; prefix +:+ "time"; "success"] ->
        w_flow_results w2 !! k = w_flow_results w !! k).
Proof.
  intros Hres Herr Hfail.
  destruct (add_results_run w w1 xml prefix Hres) as (w2 & Hrun & Hfr & _).
  destruct (with_counters_lookup prefix xml (w_flow_results w))
    as (Ht & He & Hf & Hs & Hti & Hsu).
  exists (negb (summary_failed xml)), w2. split; [exact Hrun|]. split.
  { rewrite negb_true_iff, <- not_true_iff_false, summary_failed_truthy.
    split; intros H1 H2; apply H1; intuition lia. }
  split.
  { now rewrite negb_true_iff, <- not_true_iff_false, summary_failed_truthy. }
  rewrite Hfr. destruct (summary_failed xml); simpl.
  - rewrite !lookup_insert_ne by key_ne. rewrite lookup_insert_eq.
    repeat (split; [assumption|]). split; [reflexivity|].
    split; [discriminate|].
    intros k Hk. rewrite lookup_insert_ne by (intros <-; simpl in Hk; tauto).
    apply with_counters_other. simpl in *. tauto.
  - repeat (split; [assumption|]). split; [discriminate|].
    split; [intros _; exact Hsu|].
    intros k Hk. apply with_counters_other. simpl in *. tauto.
Qed.

Lemma add_results_summary_witness :
  results w_passing_report
  = (Ok passing_report,
     set_self (set_cached_results passing_report sample_self) w_passing_report)
  /\ 0 <= errors passing_report
  /\ 0 <= failures passing_report
  /\ exists w2,
       add_results "cocotb." w_passing_report = (Ok true, w2)
       /\ w_flow_results w2 !! "cocotb.tests" = Some (PInt 10)
       /\ w_flow_results w2 !! "cocotb.skipped" = Some (PInt 2)
       /\ w_flow_results w2 !! "success" = None.
Proof.
  split; [reflexivity|]. split; [simpl; lia|]. split; [simpl; lia|].
  destruct (add_results_summary w_passing_report _ passing_report "cocotb."
              eq_refl ltac:(simpl; lia) ltac:(simpl; lia))
    as (success & w2 & Hrun & Hsucc & _ & Ht & _ & _ & Hs & _ & _ & Hkeep & _).
  assert (Hs' : success = true).
  { apply Hsucc. simpl. lia. }
  subst success. exists w2. split; [exact Hrun|]. split; [exact Ht|].
  split; [exact Hs|]. rewrite (Hkeep eq_refl). reflexivity.
Defined.

(** ** C3: no results file *)



(* ===================================================================== *)
(** * Further properties *)
(* ===================================================================== *)

(** ** [Cocotb.env]: the table of a successful call *)

(** A call on a design with cocotb that returns a table has passed both
    validations, and the table and the store are those of [env_ok]. *)
Lemma env_ok_inv (w w' : World) (cc : CocotbTestbench)
    (table : gmap string pyval) :
  tb_cocotb (tb (w_design w)) = Some cc ->
  env w = (Ok table, w') ->
  nonempty (tb_sources (tb (w_design w))) = true
  /\ TbTop_truthy (tb_top (tb (w_design w)))
     || truthy_opt (rtl_top (rtl (w_design w))) = true
  /\ table
     = env_table (w_self w) cc
         (fst (module_and_py_path (defaulted_design (w_design w)) cc
                                  (w_environ w)))
         (resolve_toplevel (defaulted_design (w_design w)) cc)
         (snd (module_and_py_path (defaulted_design (w_design w)) cc
                                  (w_environ w)))
  /\ w' = add_log (env_log_record table)
                  (set_design (defaulted_design (w_design w)) w).
Proof.
  intros Hcc Hrun.
  destruct (tb_sources (tb (w_design w))) as [|src srcs] eqn:Hsrc.
  { rewrite (env_no_sources w cc Hcc Hsrc) in Hrun. discriminate Hrun. }
  assert (Hne : nonempty (tb_sources (tb (w_design w))) = true)
    by now rewrite Hsrc.
  rewrite <- Hsrc.
  destruct (TbTop_truthy (tb_top (tb (w_design w)))
            || truthy_opt (rtl_top (rtl (w_design w)))) eqn:Htop.
  - pose proof (env_ok w cc Hcc Hne Htop) as Hok. cbv zeta in Hok.
    rewrite Hok in Hrun. injection Hrun as <- <-. auto.
  - apply orb_false_iff in Htop as [Ht Hr].
    rewrite (env_no_top w cc Hcc Hne Ht Hr) in Hrun. discriminate Hrun.
Qed.

Lemma env_table_dom (self : CocotbObj) (cc : CocotbTestbench)
    (coco_module toplevel : option string) (py_path : list string) :
  dom (env_table self cc coco_module toplevel py_path)
  = base_keys ∪ optional_keys self cc.
Proof.
  unfold env_table, optional_keys, chosen_testcases, base_keys.
  destruct (coverage self), (testcase self), (cc_testcase cc),
    (random_seed self), (gpi_extra self); simpl;
    rewrite !dom_insert_L, dom_empty_L; set_solver.
Qed.

(** X1. The table of a design with cocotb holds the six base names, and
    on top of them COVERAGE, TESTCASE, RANDOM_SEED and GPI_EXTRA exactly
    when the settings ask for them; it holds no other name. *)
Theorem env_keys (w w' : World) (cc : CocotbTestbench)
    (table : gmap string pyval) :
  tb_cocotb (tb (w_design w)) = Some cc ->
  env w = (Ok table, w') ->
  dom table = base_keys ∪ optional_keys (w_self w) cc.
Proof.
  intros Hcc Hrun.
  destruct (env_ok_inv w w' cc table Hcc Hrun) as (_ & _ & -> & _).
  apply env_table_dom.
Qed.

Lemma env_keys_witness :
  exists table w',
    tb_cocotb (tb (w_design w_full_settings)) = Some cc_pkg_mod
    /\ env w_full_settings = (Ok table, w')
    /\ dom table
       = base_keys ∪ {[ "COVERAGE"; "TESTCASE"; "RANDOM_SEED" ]}.
Proof.
  pose proof (env_ok w_full_settings cc_pkg_mod eq_refl eq_refl eq_refl)
    as Hok.
  cbv zeta in Hok.
  eexists _, _. split; [reflexivity|]. split; [exact Hok|].
  rewrite (env_keys w_full_settings _ cc_pkg_mod _ eq_refl Hok).
  unfold optional_keys. simpl. set_solver.
Defined.

Lemma env_table_optional (self : CocotbObj) (cc : CocotbTestbench)
    (coco_module toplevel : option string) (py_path : list string) :
  let table := env_table self cc coco_module toplevel py_path in
  table !! "COVERAGE" = (if coverage self then Some (PInt 1) else None)
  /\ table !! "TESTCASE"
     = match chosen_testcases self cc with
       | [] => None
       | l => Some (PStr (PyStr.join "," l))
       end
  /\ table !! "RANDOM_SEED" = PInt <$> random_seed self
  /\ table !! "GPI_EXTRA"
     = match gpi_extra self with
       | [] => None
       | l => Some (PStr (PyStr.join "," l))
       end.
Proof.
  unfold env_table, chosen_testcases.
  destruct (coverage self), (testcase self), (cc_testcase cc),
    (random_seed self), (gpi_extra self); simpl;
    repeat split; simplify_map_eq; reflexivity.
Qed.

(** X2. In the table of a design with cocotb, COVERAGE is 1 when coverage
    is on and absent otherwise; TESTCASE is the comma-joined testcases of
    the settings when they have any, else those of the testbench, and is
    absent when both are empty; RANDOM_SEED is the seed whenever one is
    set, 0 included; GPI_EXTRA is the comma-joined extra libraries and is
    absent when there are none. *)
Theorem env_optional_entries (w w' : World) (cc : CocotbTestbench)
    (table : gmap string pyval) :
  tb_cocotb (tb (w_design w)) = Some cc ->
  env w = (Ok table, w') ->
  table !! "COVERAGE" = (if coverage (w_self w) then Some (PInt 1) else None)
  /\ table !! "TESTCASE"
     = match testcase (w_self w), cc_testcase cc with
       | [], [] => None
       | [], l => Some (PStr (PyStr.join "," l))
       | l, _ => Some (PStr (PyStr.join "," l))
       end
  /\ table !! "RANDOM_SEED" = PInt <$> random_seed (w_self w)
  /\ table !! "GPI_EXTRA"
     = match gpi_extra (w_self w) with
       | [] => None
       | l => Some (PStr (PyStr.join "," l))
       end.
Proof.
  intros Hcc Hrun.
  destruct (env_ok_inv w w' cc table Hcc Hrun) as (_ & _ & -> & _).
  destruct (env_table_optional (w_self w) cc
              (fst (module_and_py_path (defaulted_design (w_design w)) cc
                                       (w_environ w)))
              (resolve_toplevel (defaulted_design (w_design w)) cc)
              (snd (module_and_py_path (defaulted_design (w_design w)) cc
                                       (w_environ w))))
    as (Hc & Ht & Hs & Hg).
  repeat split; try assumption.
  rewrite Ht. unfold chosen_testcases.
  destruct (testcase (w_self w)), (cc_testcase cc); reflexivity.
Qed.

Lemma env_optional_entries_witness :
  exists table w',
    tb_cocotb (tb (w_design w_full_settings)) = Some cc_pkg_mod
    /\ env w_full_settings = (Ok table, w')
    /\ table !! "COVERAGE" = Some (PInt 1)
    /\ table !! "TESTCASE" = Some (PStr "test_add,test_carry")
    /\ table !! "RANDOM_SEED" = Some (PInt 0)
    /\ table !! "GPI_EXTRA" = None.
Proof.
  pose proof (env_ok w_full_settings cc_pkg_mod eq_refl eq_refl eq_refl)
    as Hok.
  cbv zeta in Hok.
  eexists _, _. split; [reflexivity|]. split; [exact Hok|].
  exact (env_optional_entries w_full_settings _ cc_pkg_mod _ eq_refl Hok).
Defined.

Lemma reported_toplevel_some (d : Design) (cc : CocotbTestbench) :
  TbTop_truthy (tb_top (tb d)) || truthy_opt (rtl_top (rtl d)) = true ->
  exists s, reported_toplevel d cc = Some s.
Proof.
  unfold reported_toplevel. intros Htop.
  destruct (truthy_opt (cc_toplevel cc)) eqn:Ec.
  { destruct (cc_toplevel cc); [eauto|discriminate]. }
  destruct (TbTop_truthy (tb_top (tb d))) eqn:Et.
  - destruct (tb_top (tb d)) as [|s|[|x l]]; simpl in *;
      try discriminate; eauto.
  - simpl in Htop. destruct (rtl_top (rtl d)); [eauto|discriminate].
Qed.

(** X3. The TOPLEVEL of a table of a design with cocotb is always a
    string, never [None]: a call that has no toplevel to report has failed
    before. *)
Theorem env_toplevel_is_string (w w' : World) (cc : CocotbTestbench)
    (table : gmap string pyval) :
  tb_cocotb (tb (w_design w)) = Some cc ->
  env w = (Ok table, w') ->
  exists s, table !! "TOPLEVEL" = Some (PStr s).
Proof.
  intros Hcc Hrun.
  destruct (env_ok_inv w w' cc table Hcc Hrun) as (_ & Htop & -> & _).
  rewrite env_table_TOPLEVEL, (resolve_toplevel_defaulted _ _ Htop).
  destruct (reported_toplevel_some _ cc Htop) as [s ->]. now exists s.
Qed.

Lemma env_toplevel_is_string_witness :
  exists table w' s,
    tb_cocotb (tb (w_design w_full_settings)) = Some cc_pkg_mod
    /\ env w_full_settings = (Ok table, w')
    /\ table !! "TOPLEVEL" = Some (PStr s).
Proof.
  pose proof (env_ok w_full_settings cc_pkg_mod eq_refl eq_refl eq_refl)
    as Hok.
  cbv zeta in Hok.
  destruct (env_toplevel_is_string w_full_settings _ cc_pkg_mod _ eq_refl Hok)
    as [s Hs].
  eexists _, _, s. split; [reflexivity|]. split; [exact Hok|exact Hs].
Defined.

(** ** [Cocotb.env]: the module name *)

Lemma append_assoc_str (a b c : string) : (a +:+ b) +:+ c = a +:+ (b +:+ c).
Proof.
  induction a as [|x a IH]; [reflexivity|].
  change (String x ((a +:+ b) +:+ c) = String x (a +:+ (b +:+ c))).
  now f_equal.
Qed.

Lemma last_char_snoc (a : string) (c : ascii) :
  PyStr.last_char (a +:+ String c "") = Some c.
Proof.
  induction a as [|x a IH]; [reflexivity|].
  change (PyStr.last_char (String x (a +:+ String c "")) = Some c).
  simpl. rewrite IH. now destruct (a +:+ String c "") eqn:E; [destruct a|].
Qed.

(** Joining a list and one more element. *)
Lemma join_snoc (sep : string) (l : list string) (x : string) :
  PyStr.join sep (l ++ [x])
  = match l with
    | [] => x
    | _ => PyStr.join sep l +:+ sep +:+ x
    end.
Proof.
  unfold PyStr.join. induction l as [|a l IH]; [reflexivity|].
  change (String.concat sep (a :: (l ++ [x])%list)
          = String.concat sep (a :: l) +:+ sep +:+ x).
  destruct l as [|b l]; [reflexivity|].
  change (a +:+ sep +:+ String.concat sep ((b :: l) ++ [x])%list
          = (a +:+ sep +:+ String.concat sep (b :: l)) +:+ sep +:+ x).
  rewrite IH, !append_assoc_str. reflexivity.
Qed.

(** The last segment of a split is what follows the last separator. *)
Lemma split_last_suffix (sep : ascii) (s : string) :
  exists dir x,
    last (PyStr.split sep s) = Some x
    /\ s = dir +:+ x
    /\ PyStr.all (fun c => negb (Ascii.eqb c sep)) x = true
    /\ (dir = "" \/ PyStr.last_char dir = Some sep).
Proof.
  destruct (last_removelast (PyStr.split sep s) (split_nonempty sep s))
    as (x & Hsplit & Hlast).
  pose proof (split_join sep s) as Hjoin.
  pose proof (split_no_sep sep s) as Hall.
  rewrite Hsplit in Hjoin, Hall. rewrite join_snoc in Hjoin.
  apply Forall_app in Hall as [_ Hx]. inversion Hx; subst.
  destruct (removelast (PyStr.split sep s)) as [|a l].
  - exists "", x. auto.
  - exists (PyStr.join (String sep "") (a :: l) +:+ String sep ""), x.
    repeat split; auto.
    + now rewrite append_assoc_str.
    + right. apply last_char_snoc.
Qed.

(** The entries of a successful call in closed form, for the table at
    hand. *)
Lemma env_entries (w w' : World) (cc : CocotbTestbench)
    (table : gmap string pyval) (o : option DesignSource) :
  tb_cocotb (tb (w_design w)) = Some cc ->
  env w = (Ok table, w') ->
  last_cocotb_source (tb_sources (tb (w_design w))) o ->
  table !! "MODULE"
  = Some (of_optional_str
            (if truthy_opt (cc_module cc)
             then last (PyStr.split "/" (default "" (cc_module cc)))
             else Path.stem <$> (ds_file <$> o)))
  /\ table !! "PYTHONPATH"
     = Some (PStr (PyStr.join ":"
               (existing_py_path (w_environ w)
                ++ module_entries (root_path (w_design w)) (cc_module cc)
                ++ source_entries o)%list)).
Proof.
  intros Hcc Hrun Ho.
  destruct (env_ok_inv w w' cc table Hcc Hrun) as (Hsrc & Htop & _ & _).
  destruct (env_ok_closed w cc o Hcc Hsrc Htop Ho)
    as (table' & w'' & Hrun' & Hmod & Hpath).
  rewrite Hrun in Hrun'. injection Hrun' as <- <-. auto.
Qed.

(** X4. With [tb.cocotb.module] set, MODULE is what follows the last "/"
    of the module string: the string is some directory part, empty or
    ending in "/", followed by MODULE, and MODULE holds no "/". *)
Theorem env_module_name (w w' : World) (cc : CocotbTestbench)
    (table : gmap string pyval) (m : string) :
  tb_cocotb (tb (w_design w)) = Some cc ->
  env w = (Ok table, w') ->
  cc_module cc = Some m ->
  PyStr.truthy m = true ->
  exists dir module_name,
    table !! "MODULE" = Some (PStr module_name)
    /\ m = dir +:+ module_name
    /\ PyStr.all (fun c => negb (Ascii.eqb c "/")) module_name = true
    /\ (dir = "" \/ PyStr.last_char dir = Some "/"%char).
Proof.
  intros Hcc Hrun Hm Hm'.
  destruct (last_cocotb_source_exists (tb_sources (tb (w_design w)))) as [o Ho].
  destruct (env_entries w w' cc table o Hcc Hrun Ho) as [Hmod _].
  rewrite Hm in Hmod. simpl in Hmod. rewrite Hm' in Hmod.
  destruct (split_last_suffix "/" m) as (dir & x & Hlast & Heq & Hno & Hdir).
  rewrite Hlast in Hmod. exists dir, x. auto.
Qed.

Lemma env_module_name_witness :
  exists table w',
    env w_rtl_fallback = (Ok table, w')
    /\ cc_module cc_pkg_mod = Some "pkg/mod"
    /\ exists dir module_name,
         table !! "MODULE" = Some (PStr module_name)
         /\ "pkg/mod" = dir +:+ module_name
         /\ PyStr.all (fun c => negb (Ascii.eqb c "/")) module_name = true
         /\ (dir = "" \/ PyStr.last_char dir = Some "/"%char).
Proof.
  pose proof (env_ok w_rtl_fallback cc_pkg_mod eq_refl eq_refl eq_refl) as Hok.
  cbv zeta in Hok.
  eexists _, _. split; [exact Hok|]. split; [reflexivity|].
  exact (env_module_name w_rtl_fallback _ cc_pkg_mod _ "pkg/mod"
           eq_refl Hok eq_refl eq_refl).
Defined.

(** X5. MODULE is [None] exactly when [tb.cocotb.module] is unset and
    [tb.sources] has no cocotb source; in every other table it is a
    string. *)
Theorem env_module_none_iff (w w' : World) (cc : CocotbTestbench)
    (table : gmap string pyval) :
  tb_cocotb (tb (w_design w)) = Some cc ->
  env w = (Ok table, w') ->
  (table !! "MODULE" = Some PNone
   <-> truthy_opt (cc_module cc) = false
       /\ Forall (fun src => is_cocotb src = false)
                 (tb_sources (tb (w_design w))))
  /\ (table !! "MODULE" = Some PNone
      \/ exists s, table !! "MODULE" = Some (PStr s)).
Proof.
  intros Hcc Hrun.
  destruct (last_cocotb_source_exists (tb_sources (tb (w_design w)))) as [o Ho].
  destruct (env_entries w w' cc table o Hcc Hrun Ho) as [Hmod _].
  rewrite Hmod. clear Hmod.
  destruct (truthy_opt (cc_module cc)) eqn:Em.
  - destruct (last_removelast _ (split_nonempty "/" (default "" (cc_module cc))))
      as (x & _ & ->).
    simpl. split; [|eauto]. split; [discriminate|]. intros [? _]. discriminate.
  - destruct o as [src|]; simpl.
    + split; [|eauto]. split; [discriminate|]. intros [_ Hall].
      destruct Ho as (pre & post & Heq & Hsrc & _). rewrite Heq in Hall.
      apply Forall_app in Hall as [_ Hall]. inversion Hall; subst. congruence.
    + split; [|auto]. split; auto.
Qed.

Lemma env_module_none_iff_witness :
  exists table w',
    tb_cocotb (tb (w_design w_no_module)) = Some cc_plain
    /\ env w_no_module = (Ok table, w')
    /\ table !! "MODULE" = Some PNone.
Proof.
  pose proof (env_ok w_no_module cc_plain eq_refl eq_refl eq_refl) as Hok.
  cbv zeta in Hok.
  eexists _, _. split; [reflexivity|]. split; [exact Hok|].
  apply (env_module_none_iff w_no_module _ cc_plain _ eq_refl Hok).
  split; [reflexivity|]. simpl. repeat constructor.
Defined.

(** ** [Cocotb.env]: calling again, logging, failing *)

Lemma tb_cocotb_defaulted (d : Design) :
  tb_cocotb (tb (defaulted_design d)) = tb_cocotb (tb d).
Proof.
  unfold defaulted_design.
  destruct (TbTop_truthy (tb_top (tb d))); [reflexivity|].
  destruct (rtl_top (rtl d)); reflexivity.
Qed.

Lemma tb_top_defaulted_truthy (d : Design) :
  TbTop_truthy (tb_top (tb d)) || truthy_opt (rtl_top (rtl d)) = true ->
  TbTop_truthy (tb_top (tb (defaulted_design d))) = true.
Proof.
  unfold defaulted_design. intros Htop.
  destruct (TbTop_truthy (tb_top (tb d))) eqn:Et; [exact Et|].
  simpl in Htop. destruct (rtl_top (rtl d)); [reflexivity|discriminate].
Qed.

(** X6. A call that has returned a table can be repeated: the second call
    returns the same table and leaves the design, with the [tb.top] the
    first call may have written, and the settings as they are. *)
Theorem env_again (w w1 : World) (table : gmap string pyval) :
  env w = (Ok table, w1) ->
  exists w2,
    env w1 = (Ok table, w2)
    /\ w_design w2 = w_design w1
    /\ w_self w2 = w_self w1.
Proof.
  intros Hrun.
  destruct (tb_cocotb (tb (w_design w))) as [cc|] eqn:Hcc.
  2: { rewrite (env_not_requested w Hcc) in Hrun. injection Hrun as <- <-.
       exists w. now rewrite (env_not_requested w Hcc). }
  destruct (env_ok_inv w w1 cc table Hcc Hrun) as (Hsrc & Htop & Htab & ->).
  set (d' := defaulted_design (w_design w)) in *.
  set (w1 := add_log (env_log_record table) (set_design d' w)).
  assert (Hcc1 : tb_cocotb (tb (w_design w1)) = Some cc).
  { simpl. subst d'. now rewrite tb_cocotb_defaulted. }
  assert (Hsrc1 : nonempty (tb_sources (tb (w_design w1))) = true).
  { simpl. subst d'. now rewrite tb_sources_defaulted. }
  assert (Ht1 : TbTop_truthy (tb_top (tb (w_design w1))) = true).
  { simpl. subst d'. now apply tb_top_defaulted_truthy. }
  assert (Htop1 : TbTop_truthy (tb_top (tb (w_design w1)))
                  || truthy_opt (rtl_top (rtl (w_design w1))) = true)
    by now rewrite Ht1.
  pose proof (env_ok w1 cc Hcc1 Hsrc1 Htop1) as Hok. cbv zeta in Hok.
  rewrite (defaulted_design_truthy _ Ht1) in Hok.
  change (w_design w1) with d' in Hok.
  change (w_environ w1) with (w_environ w) in Hok.
  change (w_self w1) with (w_self w) in Hok.
  rewrite <- Htab in Hok.
  eexists. split; [exact Hok|]. split; reflexivity.
Qed.

Lemma env_again_witness :
  exists table w1 w2,
    env w_rtl_fallback = (Ok table, w1)
    /\ env w1 = (Ok table, w2)
    /\ tb_top (tb (w_design w2)) = TbTopSeq ["adder"].
Proof.
  pose proof (env_ok w_rtl_fallback cc_pkg_mod eq_refl eq_refl eq_refl) as Hok.
  cbv zeta in Hok.
  destruct (env_again w_rtl_fallback _ _ Hok) as (w2 & Hrun2 & Hd & _).
  eexists _, _, w2. split; [exact Hok|]. split; [exact Hrun2|].
  rewrite Hd. reflexivity.
Defined.

(** X7. A call on a design with cocotb that returns a table appends one
    debug record to the log, and the record carries the table that is
    returned; a call on a design without cocotb logs nothing. *)
Theorem env_logs_table (w w' : World) (table : gmap string pyval) :
  env w = (Ok table, w') ->
  w_log w'
  = match tb_cocotb (tb (w_design w)) with
    | Some _ => (w_log w ++ [env_log_record table])%list
    | None => w_log w
    end.
Proof.
  intros Hrun.
  destruct (tb_cocotb (tb (w_design w))) as [cc|] eqn:Hcc.
  - destruct (env_ok_inv w w' cc table Hcc Hrun) as (_ & _ & _ & ->).
    reflexivity.
  - rewrite (env_not_requested w Hcc) in Hrun. now injection Hrun as <- <-.
Qed.

Lemma env_logs_table_witness :
  exists table w',
    env w_rtl_fallback = (Ok table, w')
    /\ w_log w' = [env_log_record table].
Proof.
  pose proof (env_ok w_rtl_fallback cc_pkg_mod eq_refl eq_refl eq_refl) as Hok.
  cbv zeta in Hok.
  eexists _, _. split; [exact Hok|].
  rewrite (env_logs_table w_rtl_fallback _ _ Hok). reflexivity.
Defined.

(** X8. [Cocotb.env] fails in two cases only, both on a design with
    cocotb: [tb.sources] is empty, and the error is that of the sources
    whatever [tb.top] and [rtl.top] are; or [tb.sources] is not empty and
    [tb.top] and [rtl.top] are both unset, and the error names the
    design. *)
Theorem env_fails_iff (w : World) (e : exn) :
  fst (env w) = Raise e
  <-> exists cc,
        tb_cocotb (tb (w_design w)) = Some cc
        /\ ((tb_sources (tb (w_design w)) = []
             /\ e = ValueError sources_empty_msg)
            \/ (tb_sources (tb (w_design w)) <> []
                /\ TbTop_truthy (tb_top (tb (w_design w))) = false
                /\ truthy_opt (rtl_top (rtl (w_design w))) = false
                /\ e = ValueError
                         ("[cocotb] In design " +:+ name (w_design w)
                          +:+ ": Either `tb.top` or `rtl.top` must be specified."))).
Proof.
  destruct (tb_cocotb (tb (w_design w))) as [cc|] eqn:Hcc.
  2: { rewrite (env_not_requested w Hcc). simpl. split; [discriminate|].
       intros (cc & Hc & _). discriminate Hc. }
  destruct (tb_sources (tb (w_design w))) as [|src srcs] eqn:Hsrc.
  { rewrite (env_no_sources w cc Hcc Hsrc). simpl. split.
    - intros [= <-]. exists cc. auto.
    - intros (_ & _ & [[_ ->]|[Hne _]]); [reflexivity|contradiction]. }
  assert (Hne : nonempty (tb_sources (tb (w_design w))) = true)
    by now rewrite Hsrc.
  destruct (TbTop_truthy (tb_top (tb (w_design w)))
            || truthy_opt (rtl_top (rtl (w_design w)))) eqn:Htop.
  - pose proof (env_ok w cc Hcc Hne Htop) as Hok. cbv zeta in Hok.
    rewrite Hok. simpl. split; [discriminate|].
    intros (_ & _ & [[Hnil _]|(_ & Ht & Hr & _)]); [discriminate|].
    rewrite Ht, Hr in Htop. discriminate.
  - apply orb_false_iff in Htop as [Ht Hr].
    rewrite (env_no_top w cc Hcc Hne Ht Hr). simpl. split.
    + intros [= <-]. exists cc. split; [reflexivity|]. right.
      repeat split; auto.
    + intros (_ & _ & [[Hnil _]|(_ & _ & _ & ->)]); [discriminate|].
      reflexivity.
Qed.

(** ** [Cocotb.env]: the search path as a string *)

Lemma append_nil_r_str (a : string) : a +:+ "" = a.
Proof.
  induction a as [|x a IH]; [reflexivity|].
  change (String x (a +:+ "") = String x a). now f_equal.
Qed.

(** Joining two lists, the first not empty. *)
Lemma join_app (sep : string) (l l' : list string) :
  l <> [] ->
  PyStr.join sep (l ++ l')
  = PyStr.join sep l
    +:+ match l' with
        | [] => ""
        | _ => sep +:+ PyStr.join sep l'
        end.
Proof.
  intros Hl. destruct l' as [|y l'].
  { now rewrite app_nil_r, append_nil_r_str. }
  revert Hl. induction l as [|a l IH]; [contradiction|]. intros _.
  unfold PyStr.join in *. destruct l as [|b l].
  - reflexivity.
  - change (a +:+ sep +:+ String.concat sep ((b :: l) ++ y :: l')%list
            = (a +:+ sep +:+ String.concat sep (b :: l))
              +:+ sep +:+ String.concat sep (y :: l')).
    rewrite IH by discriminate. now rewrite !append_assoc_str.
Qed.

(** X9. When the process has a PYTHONPATH that is not empty, the
    PYTHONPATH of the table starts with it, character for character, and
    what follows is empty or starts with ":"; when the process has none,
    or an empty one, the table's PYTHONPATH is made of the new entries
    alone, with no leading ":". *)
Theorem env_pythonpath_extends (w w' : World) (cc : CocotbTestbench)
    (table : gmap string pyval) (o : option DesignSource) :
  tb_cocotb (tb (w_design w)) = Some cc ->
  env w = (Ok table, w') ->
  last_cocotb_source (tb_sources (tb (w_design w))) o ->
  (forall p, w_environ w !! "PYTHONPATH" = Some p -> PyStr.truthy p = true ->
     exists rest,
       table !! "PYTHONPATH" = Some (PStr (p +:+ rest))
       /\ (rest = "" \/ PyStr.startswith ":" rest = true))
  /\ (truthy_opt (w_environ w !! "PYTHONPATH") = false ->
      table !! "PYTHONPATH"
      = Some (PStr (PyStr.join ":"
                (module_entries (root_path (w_design w)) (cc_module cc)
                 ++ source_entries o)%list))).
Proof.
  intros Hcc Hrun Ho.
  destruct (env_entries w w' cc table o Hcc Hrun Ho) as [_ Hpath].
  rewrite Hpath. unfold existing_py_path. split.
  - intros p Hp Hp'. rewrite Hp, Hp'.
    rewrite join_app by apply split_nonempty.
    change (PyStr.join ":" (PyStr.split ":" p))
      with (PyStr.join (String ":" "") (PyStr.split ":" p)).
    rewrite split_join. eexists. split; [reflexivity|].
    destruct (module_entries _ _ ++ source_entries _)%list; [left|right];
      reflexivity.
  - intros Hp. destruct (w_environ w !! "PYTHONPATH") as [p|]; simpl in *.
    + now rewrite Hp.
    + reflexivity.
Qed.

Lemma env_pythonpath_extends_witness :
  exists table w' rest,
    env w_rtl_fallback = (Ok table, w')
    /\ w_environ w_rtl_fallback !! "PYTHONPATH" = Some "/opt/lib:/usr/lib/py"
    /\ table !! "PYTHONPATH" = Some (PStr ("/opt/lib:/usr/lib/py" +:+ rest))
    /\ (rest = "" \/ PyStr.startswith ":" rest = true).
Proof.
  pose proof (env_ok w_rtl_fallback cc_pkg_mod eq_refl eq_refl eq_refl) as Hok.
  cbv zeta in Hok.
  assert (Hlast : last_cocotb_source
                    (tb_sources (tb (w_design w_rtl_fallback)))
                    (Some cocotb_source)).
  { exists [], [rtl_source]. repeat constructor. }
  destruct (env_pythonpath_extends w_rtl_fallback _ cc_pkg_mod _ _
              eq_refl Hok Hlast) as [Hext _].
  destruct (Hext "/opt/lib:/usr/lib/py" eq_refl eq_refl) as (rest & Hp & Hr).
  eexists _, _, rest. split; [exact Hok|]. split; [reflexivity|].
  split; [exact Hp|exact Hr].
Defined.

Lemma module_dir_abs (root : string) (dir_segments : list string) :
  OsPath.isabs root = true ->
  OsPath.isabs (module_dir root dir_segments) = true.
Proof.
  intros Hroot. unfold module_dir.
  destruct dir_segments as [|a l]; [exact Hroot|].
  destruct (OsPath.isabs (PyStr.join "/" (a :: l))) eqn:Ep; [exact Ep|].
  unfold OsPath.join. unfold OsPath.isabs in Ep. rewrite Ep.
  destruct root as [|c root]; [discriminate|].
  destruct (_ || _); exact Hroot.
Qed.

(** X10. When the root path of the design is absolute, the entry that a
    set [tb.cocotb.module] adds to the search path is absolute, whether
    the module string has a directory part, absolute or not, or none. *)
Theorem env_module_entry_absolute (w w' : World) (cc : CocotbTestbench)
    (table : gmap string pyval) (m : string) :
  tb_cocotb (tb (w_design w)) = Some cc ->
  env w = (Ok table, w') ->
  cc_module cc = Some m ->
  PyStr.truthy m = true ->
  OsPath.isabs (root_path (w_design w)) = true ->
  exists entry py_after,
    table !! "PYTHONPATH"
    = Some (PStr (PyStr.join ":"
              (existing_py_path (w_environ w) ++ entry :: py_after)%list))
    /\ OsPath.isabs entry = true.
Proof.
  intros Hcc Hrun Hm Hm' Hroot.
  destruct (last_cocotb_source_exists (tb_sources (tb (w_design w)))) as [o Ho].
  destruct (env_entries w w' cc table o Hcc Hrun Ho) as [_ Hpath].
  rewrite Hm in Hpath. simpl in Hpath. rewrite Hm' in Hpath.
  eexists _, _. split; [exact Hpath|]. now apply module_dir_abs.
Qed.

Lemma env_module_entry_absolute_witness :
  exists table w' entry py_after,
    env w_rtl_fallback = (Ok table, w')
    /\ OsPath.isabs (root_path (w_design w_rtl_fallback)) = true
    /\ table !! "PYTHONPATH"
       = Some (PStr (PyStr.join ":"
                 (existing_py_path (w_environ w_rtl_fallback)
                  ++ entry :: py_after)%list))
    /\ OsPath.isabs entry = true.
Proof.
  pose proof (env_ok w_rtl_fallback cc_pkg_mod eq_refl eq_refl eq_refl) as Hok.
  cbv zeta in Hok.
  destruct (env_module_entry_absolute w_rtl_fallback _ cc_pkg_mod _ "pkg/mod"
              eq_refl Hok eq_refl eq_refl eq_refl)
    as (entry & after & Hp & Habs).
  eexists _, _, entry, after. split; [exact Hok|]. split; [reflexivity|].
  split; [exact Hp|exact Habs].
Defined.

(** ** The results file, from [Cocotb.env] to [Cocotb._results] *)


Lemma results_uncached (w : World) :
  cached_results (w_self w) = None ->
  fst (results w)
  = match w_files w !! results_xml (w_self w) with
    | Some r => r
    | None => Ok JUnitXml_empty
    end.
Proof.
  intros Hc. unfold results, _results, load_results. run_M. rewrite Hc.
  destruct (w_files w !! results_xml (w_self w)) as [[xml|e]|]; reflexivity.
Qed.



(** ** [Cocotb._results]: memoization *)

Lemma results_caches (w w1 : World) (xml : JUnitXml) :
  results w = (Ok xml, w1) ->
  cached_results (w_self w1) = Some xml.
Proof.
  unfold results, _results, load_results. run_M.
  destruct (cached_results (w_self w)) eqn:Hc.
  - intros [= <- <-]. exact Hc.
  - destruct (w_files w !! results_xml (w_self w)) as [[xml'|e]|];
      simpl; intros [= <- <-]; reflexivity.
Qed.

(** X12. Once the report has been read, it is read no more: every later
    access returns the same report and leaves the store as it is, whatever
    the files have become, and every later summary gives the same
    verdict. *)
Theorem results_memoized (w w1 : World) (xml : JUnitXml) :
  results w = (Ok xml, w1) ->
  forall files prefix,
    results (set_files files w1) = (Ok xml, set_files files w1)
    /\ fst (add_results prefix (set_files files w1))
       = Ok (negb (summary_failed xml)).
Proof.
  intros Hres files prefix.
  assert (Hres' : results (set_files files w1) = (Ok xml, set_files files w1)).
  { apply results_cached. simpl. exact (results_caches w w1 xml Hres). }
  split; [exact Hres'|].
  destruct (add_results_run _ _ xml prefix Hres') as (w2 & -> & _).
  reflexivity.
Qed.

Lemma results_memoized_witness :
  exists w1,
    results w_passing_report = (Ok passing_report, w1)
    /\ results (set_files ∅ w1) = (Ok passing_report, set_files ∅ w1)
    /\ fst (add_results "cocotb." (set_files ∅ w1)) = Ok true.
Proof.
  eexists. split; [reflexivity|].
  exact (results_memoized w_passing_report _ passing_report eq_refl
           ∅ "cocotb.").
Defined.

Lemma results_raises (w : World) (e : exn) :
  cached_results (w_self w) = None ->
  w_files w !! results_xml (w_self w) = Some (Raise e) ->
  results w = (Raise e, w).
Proof.
  intros Hc Hf. unfold results, _results, load_results. run_M.
  now rewrite Hc, Hf.
Qed.

(** X13. When the results file is there and cannot be parsed, the first
    access to the report raises the parser's error, and so do the summary
    and the list of test cases; the store is left as it was: nothing is
    written to the flow results, nothing is logged, and no report is
    cached, so that a later access reads the file again. *)
Theorem report_parse_error (round3 : spec_float -> spec_float) (w : World)
    (e : exn) (prefix : string) :
  cached_results (w_self w) = None ->
  w_files w !! results_xml (w_self w) = Some (Raise e) ->
  results w = (Raise e, w)
  /\ add_results prefix w = (Raise e, w)
  /\ result_testcases round3 w = (Raise e, w)
  /\ forall xml,
       fst (results (set_files (<[results_xml (w_self w) := Ok xml]>
                                  (w_files w)) w))
       = Ok xml.
Proof.
  intros Hc Hf. pose proof (results_raises w e Hc Hf) as Hres.
  split; [exact Hres|]. split; [|split].
  - unfold add_results. unfold mbind at 1, M_bind at 1. now rewrite Hres.
  - unfold result_testcases. unfold mbind at 1, M_bind at 1. now rewrite Hres.
  - intros xml. rewrite results_uncached by exact Hc. simpl.
    now rewrite lookup_insert_eq.
Qed.

Lemma report_parse_error_witness :
  cached_results (w_self w_broken_report) = None
  /\ add_results "cocotb." w_broken_report
     = (Raise (ReportParseError "not XML"), w_broken_report)
  /\ w_flow_results w_broken_report !! "cocotb.tests" = None.
Proof.
  split; [reflexivity|]. split; [|reflexivity].
  apply (report_parse_error (fun x => x) w_broken_report
           (ReportParseError "not XML") "cocotb." eq_refl eq_refl).
Defined.

(** ** [Cocotb.add_results]: the whole store after a summary *)

(** The store a summary leaves behind. *)
Lemma add_results_store (w w1 : World) (xml : JUnitXml) (prefix : string) :
  results w = (Ok xml, w1) ->
  add_results prefix w
  = (Ok (negb (summary_failed xml)),
     {| w_self := w_self w1; w_design := w_design w;
        w_flow_results := summarized prefix xml (w_flow_results w);
        w_environ := w_environ w; w_files := w_files w;
        w_log := (w_log w ++ summary_log xml)%list |}).
Proof.
  intros Hres.
  destruct (results_frame w w1 xml Hres) as (Hfr & Hd & He & Hf & Hl).
  unfold add_results, summarized, summary_failed, with_counters, summary_log,
    truthy_int.
  unfold mbind at 1, M_bind at 1. rewrite Hres.
  rewrite <- Hfr, <- Hd, <- He, <- Hf, <- Hl.
  unfold assign_flow_result. run_M.
  destruct (tests xml =? 0)%Z, (errors xml =? 0)%Z, (failures xml =? 0)%Z;
    simpl; unfold set_flow_results, add_log; simpl;
    rewrite <- ?app_assoc, ?app_nil_r; reflexivity.
Qed.

(** A summary that returns has read the report. *)
Lemma add_results_inv (w w1 : World) (prefix : string) (b : bool) :
  add_results prefix w = (Ok b, w1) ->
  exists xml w0, results w = (Ok xml, w0).
Proof.
  intros Hrun. destruct (results w) as [[xml|e] w0] eqn:Hres; [eauto|].
  unfold add_results in Hrun. unfold mbind at 1, M_bind at 1 in Hrun.
  rewrite Hres in Hrun. discriminate Hrun.
Qed.

Lemma with_counters_key (prefix : string) (xml : JUnitXml)
    (fr fr' : gmap string pyval) (k : string) :
  In k [prefix +:+ "tests"; prefix +:+ "errors"; prefix +:+ "failures";
        prefix +:+ "skipped"; prefix +:+ "time"] ->
  with_counters prefix xml fr !! k = with_counters prefix xml fr' !! k.
Proof.
  destruct (with_counters_lookup prefix xml fr) as (Ht & He & Hf & Hs & Hti & _).
  destruct (with_counters_lookup prefix xml fr')
    as (Ht' & He' & Hf' & Hs' & Hti' & _).
  simpl. intros [<-|[<-|[<-|[<-|[<-|[]]]]]]; congruence.
Qed.

Lemma summarized_lookup (prefix : string) (xml : JUnitXml)
    (fr : gmap string pyval) (k : string) :
  summarized prefix xml (summarized prefix xml fr) !! k
  = summarized prefix xml fr !! k.
Proof.
  unfold summarized.
  destruct (decide (In k [prefix +:+ "tests"; prefix +:+ "errors";
                          prefix +:+ "failures"; prefix +:+ "skipped";
                          prefix +:+ "time"])) as [Hin|Hout].
  - assert (Hne : "success" <> k).
    { intros <-. simpl in Hin.
      destruct Hin as [H|[H|[H|[H|[H|[]]]]]];
        (apply success_not_counter in H; [exact H|simpl; tauto]). }
    destruct (summary_failed xml).
    + rewrite !(lookup_insert_ne _ "success" k) by exact Hne.
      now apply with_counters_key.
    + now apply with_counters_key.
  - destruct (summary_failed xml).
    + destruct (decide ("success" = k)) as [<-|Hne].
      * now rewrite !lookup_insert_eq.
      * rewrite !(lookup_insert_ne _ "success" k) by exact Hne.
        rewrite !with_counters_other by exact Hout.
        rewrite lookup_insert_ne by exact Hne.
        now rewrite with_counters_other by exact Hout.
    + now rewrite !with_counters_other by exact Hout.
Qed.

(** X14. A summary can be repeated: a second call with the same prefix
    returns the same verdict and leaves the flow results exactly as the
    first call left them. *)
Theorem add_results_again (w w1 : World) (prefix : string) (b : bool) :
  add_results prefix w = (Ok b, w1) ->
  exists w2,
    add_results prefix w1 = (Ok b, w2)
    /\ w_flow_results w2 = w_flow_results w1.
Proof.
  intros Hrun.
  destruct (add_results_inv w w1 prefix b Hrun) as (xml & w0 & Hres).
  rewrite (add_results_store w w0 xml prefix Hres) in Hrun.
  injection Hrun as <- <-.
  match goal with
  | |- context [add_results prefix ?w] => set (w1 := w)
  end.
  assert (Hres1 : results w1 = (Ok xml, w1)).
  { apply results_cached. simpl. exact (results_caches w w0 xml Hres). }
  rewrite (add_results_store w1 w1 xml prefix Hres1).
  eexists. split; [reflexivity|]. simpl.
  apply map_eq. intros k. apply summarized_lookup.
Qed.

Lemma add_results_again_witness :
  exists w1 w2,
    add_results "cocotb." w_two_suites = (Ok false, w1)
    /\ add_results "cocotb." w1 = (Ok false, w2)
    /\ w_flow_results w2 = w_flow_results w1.
Proof.
  pose proof (add_results_store w_two_suites _ two_suite_report "cocotb."
                eq_refl) as Hrun.
  destruct (add_results_again w_two_suites _ "cocotb." _ Hrun)
    as (w2 & Hrun2 & Hfr).
  eexists _, w2. split; [exact Hrun|]. split; [exact Hrun2|exact Hfr].
Defined.

(** X15. A summary adds keys to the flow results and removes none: after
    it the keys are those that were there, the five counters under the
    prefix, and "success" when the summary failed. *)
Theorem add_results_keys (w w0 : World) (xml : JUnitXml) (prefix : string) :
  results w = (Ok xml, w0) ->
  exists b w1,
    add_results prefix w = (Ok b, w1)
    /\ dom (w_flow_results w1)
       = dom (w_flow_results w) ∪ summary_keys prefix xml.
Proof.
  intros Hres. rewrite (add_results_store w w0 xml prefix Hres).
  eexists _, _. split; [reflexivity|]. simpl.
  unfold summarized, summary_keys, with_counters.
  destruct (summary_failed xml); rewrite !dom_insert_L;
    apply set_eq; intros k; rewrite !elem_of_union, ?elem_of_empty; tauto.
Qed.

Lemma add_results_keys_witness :
  exists b w1,
    add_results "cocotb." w_two_suites = (Ok b, w1)
    /\ dom (w_flow_results w1)
       = {[ "synth.ok"; "cocotb.tests"; "cocotb.errors"; "cocotb.failures";
            "cocotb.skipped"; "cocotb.time"; "success" ]}.
Proof.
  destruct (add_results_keys w_two_suites _ two_suite_report "cocotb." eq_refl)
    as (b & w1 & Hrun & Hdom).
  exists b, w1. split; [exact Hrun|]. rewrite Hdom.
  unfold summary_keys. simpl. rewrite dom_singleton_L. set_solver.
Defined.

(** X16. A summary logs one record for each of its three findings, in
    this order: no test (error level), some errors (error level, with
    their number), some failures (critical level, with their number); it
    returns true exactly when it has logged nothing. *)
Theorem add_results_log (w w0 : World) (xml : JUnitXml) (prefix : string) :
  results w = (Ok xml, w0) ->
  exists b w1,
    add_results prefix w = (Ok b, w1)
    /\ w_log w1 = (w_log w ++ summary_log xml)%list
    /\ (b = true <-> w_log w1 = w_log w)
    /\ (length (summary_log xml) <= 3)%nat.
Proof.
  intros Hres. rewrite (add_results_store w w0 xml prefix Hres).
  eexists _, _. split; [reflexivity|]. simpl. split; [reflexivity|].
  unfold summary_failed, summary_log, truthy_int. split.
  - destruct (tests xml =? 0)%Z, (errors xml =? 0)%Z, (failures xml =? 0)%Z;
      simpl; rewrite ?app_nil_r; split; intros H; try reflexivity;
      try discriminate H;
      apply (f_equal (@length LogRecord)) in H;
      rewrite length_app in H; simpl in H; lia.
  - destruct (tests xml =? 0)%Z, (errors xml =? 0)%Z, (failures xml =? 0)%Z;
      simpl; lia.
Qed.

Lemma add_results_log_witness :
  exists b w1,
    add_results "cocotb." w_two_suites = (Ok b, w1)
    /\ w_log w1
       = [{| lr_level := CRITICAL; lr_msg := "Cocotb: %d failure(s)";
             lr_args := [LogVal (PInt 1)] |}]
    /\ b = false.
Proof.
  destruct (add_results_log w_two_suites _ two_suite_report "cocotb." eq_refl)
    as (b & w1 & Hrun & Hlog & Hb & _).
  exists b, w1. split; [exact Hrun|]. split; [exact Hlog|].
  destruct b; [|reflexivity].
  destruct Hb as [Hb _]. rewrite Hlog in Hb. discriminate (Hb eq_refl).
Defined.

(** ** [Cocotb.result_testcases] *)

Section ResultTestcasesFacts.

Variable round3 : spec_float -> spec_float.

Lemma yield_cases_present (cases : list (option TestCase)) :
  yield_cases round3 cases = testcase_record round3 <$> omap id cases.
Proof.
  induction cases as [|[tc|] cases IH]; simpl; [reflexivity| |exact IH].
  now rewrite IH.
Qed.

Lemma yield_suites_present (ss : list (option TestSuite)) :
  yield_suites round3 ss
  = testcase_record round3
      <$> concat (map (fun ts => omap id (ts_cases ts)) (omap id ss)).
Proof.
  induction ss as [|[ts|] ss IH]; simpl; [reflexivity| |exact IH].
  now rewrite fmap_app, IH, yield_cases_present.
Qed.

Lemma testcase_record_lookup (tc : TestCase) :
  testcase_record round3 tc !! "name" = Some (PStr (tc_name tc))
  /\ testcase_record round3 tc !! "result" = Some (PStr (tc_result tc))
  /\ testcase_record round3 tc !! "classname" = Some (PStr (tc_classname tc))
  /\ testcase_record round3 tc !! "time"
     = Some (match tc_time tc with
             | None => PNone
             | Some t => PFloat (round3 t)
             end)
  /\ dom (testcase_record round3 tc)
     = {[ "name"; "result"; "classname"; "time" ]}.
Proof.
  unfold testcase_record.
  split; [|split; [|split; [|split]]]; simplify_map_eq; reflexivity.
Qed.

(** X17. The list of test cases has one record for each test case that is
    there, in the order of the report: absent suites and absent cases are
    passed over without an error. The record of a case holds its name, its
    result, its class name and its time under exactly these four keys; the
    time is [None] when the case has none and the rounded time otherwise.
    Listing the cases leaves the store as reading the report does. *)
Theorem result_testcases_present (w w0 : World) (xml : JUnitXml) :
  results w = (Ok xml, w0) ->
  exists records,
    result_testcases round3 w = (Ok records, w0)
    /\ length records = length (present_cases xml)
    /\ forall i tc,
         present_cases xml !! i = Some tc ->
         exists r,
           records !! i = Some r
           /\ r !! "name" = Some (PStr (tc_name tc))
           /\ r !! "result" = Some (PStr (tc_result tc))
           /\ r !! "classname" = Some (PStr (tc_classname tc))
           /\ r !! "time"
              = Some (match tc_time tc with
                      | None => PNone
                      | Some t => PFloat (round3 t)
                      end)
           /\ dom r = {[ "name"; "result"; "classname"; "time" ]}.
Proof.
  intros Hres. unfold result_testcases.
  unfold mbind at 1, M_bind at 1. rewrite Hres. run_M.
  eexists. split; [reflexivity|].
  rewrite yield_suites_present. fold (present_cases xml).
  split; [apply length_fmap|].
  intros i tc Hi. exists (testcase_record round3 tc).
  split; [now rewrite list_lookup_fmap, Hi|].
  apply testcase_record_lookup.
Qed.

End ResultTestcasesFacts.

Lemma result_testcases_present_witness :
  exists w0 records,
    results w_two_suites = (Ok two_suite_report, w0)
    /\ result_testcases (fun x => x) w_two_suites = (Ok records, w0)
    /\ length records = 2%nat
    /\ exists r, records !! 1%nat = Some r
                 /\ r !! "name" = Some (PStr "test_carry")
                 /\ r !! "time" = Some PNone.
Proof.
  destruct (result_testcases_present (fun x => x) w_two_suites _
              two_suite_report eq_refl)
    as (records & Hrun & Hlen & Hrec).
  destruct (Hrec 1%nat case_carry eq_refl) as (r & Hr & Hn & _ & _ & Ht & _).
  eexists _, records. split; [reflexivity|]. split; [exact Hrun|].
  split; [exact Hlen|]. exists r. auto.
Defined.

(** ** [str_to_list]: how many elements, and back from a joined list *)



Lemma str_to_list_join (l : list string) :
  l <> [] ->
  Forall (fun e => PyStr.all (fun c => negb (Ascii.eqb c ",")) e = true
                   /\ PyStr.strip e = e) l ->
  str_to_list (PStr (PyStr.join "," l)) = PList (PStr <$> l).
Proof.
  intros Hne Hall. simpl.
  assert (Hsplit : l = PyStr.split "," (PyStr.join "," l)).
  { apply split_unique. split; [exact Hne|]. split; [reflexivity|].
    eapply Forall_impl; [exact Hall|]. now intros e [He _]. }
  rewrite <- Hsplit. f_equal.
  clear Hsplit Hne. induction Hall as [|e l [_ He] _ IH]; [reflexivity|].
  simpl. now rewrite He, IH.
Qed.

(** X19. What the table says under TESTCASE and GPI_EXTRA reads back as
    the list it was made from: when the elements of the list hold no comma
    and no whitespace at either end, the validator applied to the entry
    gives the list again. *)
Theorem env_lists_read_back (w w' : World) (cc : CocotbTestbench)
    (table : gmap string pyval) :
  tb_cocotb (tb (w_design w)) = Some cc ->
  env w = (Ok table, w') ->
  (testcase (w_self w) <> [] ->
   Forall (fun e => PyStr.all (fun c => negb (Ascii.eqb c ",")) e = true
                    /\ PyStr.strip e = e) (testcase (w_self w)) ->
   exists v, table !! "TESTCASE" = Some v
             /\ str_to_list v = PList (PStr <$> testcase (w_self w)))
  /\ (gpi_extra (w_self w) <> [] ->
      Forall (fun e => PyStr.all (fun c => negb (Ascii.eqb c ",")) e = true
                       /\ PyStr.strip e = e) (gpi_extra (w_self w)) ->
      exists v, table !! "GPI_EXTRA" = Some v
                /\ str_to_list v = PList (PStr <$> gpi_extra (w_self w))).
Proof.
  intros Hcc Hrun.
  destruct (env_ok_inv w w' cc table Hcc Hrun) as (_ & _ & -> & _).
  destruct (env_table_optional (w_self w) cc
              (fst (module_and_py_path (defaulted_design (w_design w)) cc
                                       (w_environ w)))
              (resolve_toplevel (defaulted_design (w_design w)) cc)
              (snd (module_and_py_path (defaulted_design (w_design w)) cc
                                       (w_environ w))))
    as (_ & Ht & _ & Hg).
  split.
  - intros Hne Hall. rewrite Ht. unfold chosen_testcases.
    destruct (testcase (w_self w)) as [|e l] eqn:El; [contradiction|].
    eexists. split; [reflexivity|]. now apply str_to_list_join.
  - intros Hne Hall. rewrite Hg.
    destruct (gpi_extra (w_self w)) as [|e l] eqn:El; [contradiction|].
    eexists. split; [reflexivity|]. now apply str_to_list_join.
Qed.

Lemma env_lists_read_back_witness :
  exists table w' v,
    env w_full_settings = (Ok table, w')
    /\ table !! "TESTCASE" = Some v
    /\ str_to_list v = PList [PStr "test_add"; PStr "test_carry"].
Proof.
  pose proof (env_ok w_full_settings cc_pkg_mod eq_refl eq_refl eq_refl)
    as Hok.
  cbv zeta in Hok.
  destruct (env_lists_read_back w_full_settings _ cc_pkg_mod _ eq_refl Hok)
    as [Ht _].
  destruct Ht as (v & Hv & Hback).
  { discriminate. }
  { repeat constructor. }
  eexists _, _, v. split; [exact Hok|]. split; [exact Hv|exact Hback].
Defined.
